(** * Behavioural-timeline simulation engine: Person and Apartment

    A shallow embedding of [simulation/person.py] and
    [simulation/apartment.py], together with the part of
    [simulation/func.py] that both consume ([extract_time_features]).

    Modelling conventions.
    - Python integers are [Z]; one-dimensional integer numpy arrays are
      [list Z], indexed with numpy's rules ([getitem]: negative indices
      count from the end, anything else out of range raises IndexError).
    - A timestamp is a number of nanoseconds since the Unix epoch, as in a
      naive pandas [datetime64[ns]] series.
    - The fractional hour [hour + minute/60 + second/3600] is an exact
      rational ([Q]); interval bounds are integers, as annotated in the
      source.
    - A random stream is a sequence of raw draws together with the number of
      draws consumed so far.  Every sampling call consumes one raw draw and
      reduces it into the requested range, so quantifying over all streams
      covers every outcome the library can produce.
    - Exceptions are values of [exn]; code that can raise lives in [result]
      or in the state-and-exception monad [M] over the random stream. *)

From Stdlib Require Import ZArith QArith Lia.
From stdpp Require Import base strings list list_numbers functions.

Open Scope Z_scope.

(** ** Exceptions and results *)

Inductive exn : Type :=
| ValueError (msg : string)
| TypeError (msg : string)
| IndexError (msg : string).

Inductive result (A : Type) : Type :=
| Ok (a : A)
| Raise (e : exn).
Arguments Ok {A} a.
Arguments Raise {A} e.

Global Instance result_ret : MRet result := λ A a, Ok a.
Global Instance result_bind : MBind result := λ A B f m,
  match m with
  | Ok a => f a
  | Raise e => Raise e
  end.

Global Instance result_fmap : FMap result := λ A B f m,
  match m with
  | Ok a => Ok (f a)
  | Raise e => Raise e
  end.

(** ** numpy arrays of integers *)

Definition truthy (v : Z) : bool := negb (v =? 0).

Definition zeros (n : Z) : list Z := replicate (Z.to_nat n) 0.

Definition len {A} (a : list A) : Z := Z.of_nat (length a).

(** A negative index counts from the end of an axis of length [n]. *)
Definition norm_index (n i : Z) : Z := if i <? 0 then i + n else i.

(** [a[i]] *)
Definition getitem {A} (a : list A) (i : Z) : result A :=
  let j := norm_index (len a) i in
  if (0 <=? j) && (j <? len a) then
    match a !! Z.to_nat j with
    | Some v => Ok v
    | None => Raise (IndexError "index out of bounds")
    end
  else Raise (IndexError "index out of bounds").

(** [a[i] = v] *)
Definition setitem {A} (a : list A) (i : Z) (v : A) : result (list A) :=
  let j := norm_index (len a) i in
  if (0 <=? j) && (j <? len a) then Ok (<[Z.to_nat j := v]> a)
  else Raise (IndexError "index out of bounds").

(** [range(a, b)] *)
Definition range (a b : Z) : list Z := seqZ a (b - a).

(** ** Random streams *)

Module np_random.

Record Generator : Type := mkGenerator {
  bits : nat → Z;   (* the raw draws of the underlying bit generator *)
  drawn : nat       (* how many of them have been consumed *)
}.

Definition next (g : Generator) : Z * Generator :=
  (bits g (drawn g), mkGenerator (bits g) (S (drawn g))).

End np_random.
Import np_random.

(** Computations that draw from a random stream and may raise. *)
Definition M (A : Type) : Type := Generator → result A * Generator.

Global Instance M_ret : MRet M := λ A a g, (Ok a, g).
Global Instance M_bind : MBind M := λ A B f m g,
  match m g with
  | (Ok a, g') => f a g'
  | (Raise e, g') => (Raise e, g')
  end.

Definition lift {A} (r : result A) : M A := λ g, (r, g).

Module Sampling.

(** [Generator.integers(low, high)] and [RandomState.randint(low, high)]:
    an integer in [[low, high)]; an empty range is refused. *)
Definition integers (low high : Z) : M Z := λ g,
  if high <=? low then (Raise (ValueError "low >= high"), g)
  else let '(r, g') := next g in (Ok (low + r mod (high - low)), g').

(** [Generator.choice(a)]: one element of a non-empty sequence. *)
Definition choice (a : list Z) : M Z := λ g,
  match a with
  | [] => (Raise (ValueError "a cannot be empty unless no samples are taken"), g)
  | _ :: _ => let '(r, g') := next g in (getitem a (r mod len a), g')
  end.

(** [RandomState.rand()]: a double in [[0, 1)] with 53 random bits. *)
Definition rand : Generator → Q * Generator := λ g,
  let '(r, g') := next g in (Qmake (r mod 2 ^ 53) (2 ^ 53), g').

End Sampling.

(** ** Monadic loops *)

(** [for x in xs: s = body(x, s)] *)
Fixpoint for_each {A S} (xs : list A) (body : A → S → M S) (s : S) : M S :=
  match xs with
  | [] => mret s
  | x :: xs' => s' ← body x s; for_each xs' body s'
  end.

(** [for _ in range(k): s = body(s)] *)
Definition for_range {S} (k : Z) (body : S → M S) (s : S) : M S :=
  for_each (range 0 k) (λ _, body) s.

(** ** Calendar features ([simulation/func.py]) *)

Definition Timestamp : Type := Z.

Definition ns_per_second : Z := 1000000000.
Definition ns_per_minute : Z := 60 * ns_per_second.
Definition ns_per_hour : Z := 60 * ns_per_minute.
Definition ns_per_day : Z := 24 * ns_per_hour.

Definition dt_hour (t : Timestamp) : Z := (t mod ns_per_day) / ns_per_hour.
Definition dt_minute (t : Timestamp) : Z := (t mod ns_per_hour) / ns_per_minute.
Definition dt_second (t : Timestamp) : Z := (t mod ns_per_minute) / ns_per_second.
(** The epoch, 1970-01-01, was a Thursday; Monday is 0. *)
Definition dt_weekday (t : Timestamp) : Z := (t / ns_per_day + 3) mod 7.
(** Midnight of the same day. *)
Definition dt_normalize (t : Timestamp) : Timestamp := t - t mod ns_per_day.

(** Only the features the simulation reads are kept; the calendar fields
    used by the environmental generators (month, day of year, ...) play no
    part here. *)
Record time_features : Type := {
  hours : list Q;
  weekday : list Z;
  dates : list Timestamp
}.

Definition fractional_hour (t : Timestamp) : Q :=
  (inject_Z (dt_hour t) + Qmake (dt_minute t) 60 + Qmake (dt_second t) 3600)%Q.

Definition extract_time_features (timestamps : list Timestamp) : time_features :=
  {| hours := fractional_hour <$> timestamps;
     weekday := dt_weekday <$> timestamps;
     dates := dt_normalize <$> timestamps |}.

(** Comparisons of a fractional hour with an integer bound. *)
Definition le_hour (b : Z) (h : Q) : bool := Qle_bool (inject_Z b) h.
Definition hour_lt (h : Q) (b : Z) : bool := negb (Qle_bool (inject_Z b) h).
Definition hour_ge (h : Q) (b : Z) : bool := Qle_bool (inject_Z b) h.

(** ** numpy helpers used for day partitioning *)

Fixpoint insert_sorted (x : Z) (l : list Z) : list Z :=
  match l with
  | [] => [x]
  | y :: l' =>
      if x <? y then x :: l
      else if x =? y then l
      else y :: insert_sorted x l'
  end.

(** [np.unique(a)]: the sorted distinct values. *)
Definition np_unique (a : list Z) : list Z := foldr insert_sorted [] a.

(** [np.where(a == v)[0]], counting positions from [k]. *)
Fixpoint where_eq_from (k : Z) (a : list Z) (v : Z) : list Z :=
  match a with
  | [] => []
  | x :: a' =>
      if x =? v then k :: where_eq_from (k + 1) a' v
      else where_eq_from (k + 1) a' v
  end.

Definition np_where_eq (a : list Z) (v : Z) : list Z := where_eq_from 0 a v.

(** [np.any(a == v)] *)
Definition np_any_eq (a : list Z) (v : Z) : bool := existsb (λ x, x =? v) a.

(** ** Person ([simulation/person.py]) *)

(** The cached tuple [(inside, sleeping, room1, windows, doors)]. *)
Definition timeline : Type := list Z * list Z * list Z * list Z * list Z.

Module Person.

(** Event-count ranges and duration ranges are two-element sequences in the
    source, read only through [[0]] and [[1]]; they are pairs here. *)
Record t : Type := mk {
  name : string;
  outside_hours_weekdays : list (Z * Z);
  outside_hours_weekend : list (Z * Z);
  sleep_hours : Z * Z;
  window_open_per_day : Z * Z;
  window_open_duration : Z * Z;
  door_open_per_day : Z * Z;
  door_open_duration : Z * Z;
  room_per_day : Z * Z;
  room_duration : Z * Z;
  rng : Generator;
  timestamps : option (list Timestamp);
  _timeline_cache : option timeline
}.

Definition with_state (self : t) (g : Generator)
    (ts : option (list Timestamp)) (cache : option timeline) : t :=
  mk (name self) (outside_hours_weekdays self) (outside_hours_weekend self)
     (sleep_hours self) (window_open_per_day self) (window_open_duration self)
     (door_open_per_day self) (door_open_duration self)
     (room_per_day self) (room_duration self) g ts cache.

Section Construction.
(** The raw output of the PCG64 bit generator as a function of its seed. *)
Variable PCG64 : Z → nat → Z.

(** [np.random.default_rng(seed)]; without a seed the generator is seeded
    from operating-system entropy. *)
Definition default_rng (seed : option Z) (entropy : Z) : Generator :=
  mkGenerator (PCG64 (default entropy seed)) 0.

Definition __init__ (name : string)
    (outside_hours_weekdays outside_hours_weekend : list (Z * Z))
    (sleep_hours : Z * Z)
    (window_open_per_day window_open_duration : Z * Z)
    (door_open_per_day door_open_duration : Z * Z)
    (room_per_day room_duration : Z * Z)
    (seed : option Z) (entropy : Z) : t :=
  mk name outside_hours_weekdays outside_hours_weekend sleep_hours
     window_open_per_day window_open_duration
     door_open_per_day door_open_duration
     room_per_day room_duration
     (default_rng seed entropy) None None.
End Construction.

Definition set_timeline (self : t) (timestamps : list Timestamp) : t :=
  with_state self (rng self) (Some timestamps) None.

Definition _is_outside (self : t) (hour : Q) (weekday : Z) : bool :=
  let hours_list :=
    if weekday <? 5 then outside_hours_weekdays self
    else outside_hours_weekend self in
  existsb (λ '(start, end_), le_hour start hour && hour_lt hour end_) hours_list.

Definition _generate_inside (self : t) (tf : time_features) : list Z :=
  zip_with (λ hour weekday, if _is_outside self hour weekday then 0 else 1)
           (hours tf) (weekday tf).

Definition _generate_sleeping (self : t) (tf : time_features) : list Z :=
  let '(start, end_) := sleep_hours self in
  (λ hour,
     if (if start <? end_ then le_hour start hour && hour_lt hour end_
         else hour_ge hour start || hour_lt hour end_)
     then 1 else 0) <$> hours tf.

Definition _get_day_indices (tf : time_features) : list (list Z) :=
  let days := np_unique (dates tf) in
  (λ day, np_where_eq (dates tf) day) <$>
    List.filter (λ day, np_any_eq (dates tf) day) days.

(** [inside[i] and not sleeping[i]] *)
Definition awake_inside (inside sleeping : list Z) (i : Z) : result bool :=
  x ← getitem inside i;
  if truthy x then s ← getitem sleeping i; mret (negb (truthy s))
  else mret false.

(** [not inside[i] or sleeping[i]] *)
Definition away_or_asleep (inside sleeping : list Z) (i : Z) : result bool :=
  x ← getitem inside i;
  if negb (truthy x) then mret true
  else s ← getitem sleeping i; mret (truthy s).

(** [[i for i in day_indices if inside[i] and not sleeping[i]]] *)
Fixpoint valid_indices (inside sleeping : list Z) (day_indices : list Z)
    : result (list Z) :=
  match day_indices with
  | [] => mret []
  | i :: rest =>
      c ← awake_inside inside sleeping i;
      valid ← valid_indices inside sleeping rest;
      mret (if c : bool then i :: valid else valid)
  end.

(** The innermost loop of [_generate_room1]. *)
Fixpoint fill_room1 (n_minutes : Z) (inside sleeping : list Z)
    (idx : list Z) (room1 : list Z) : result (list Z) :=
  match idx with
  | [] => mret room1
  | i :: rest =>
      if n_minutes <=? i then mret room1
      else
        c ← awake_inside inside sleeping i;
        room1' ← (if c : bool then setitem room1 i 1 else mret room1);
        fill_room1 n_minutes inside sleeping rest room1'
  end.

Definition _generate_room1 (self : t) (tf : time_features)
    (inside sleeping : list Z) : M (list Z) :=
  let n_minutes := len (hours tf) in
  let room1 := zeros n_minutes in
  if n_minutes =? 0 then mret room1
  else
    for_each (_get_day_indices tf) (λ day_indices room1,
      n_periods ← Sampling.integers (room_per_day self).1 ((room_per_day self).2 + 1);
      for_range n_periods (λ room1,
        valid ← lift (valid_indices inside sleeping day_indices);
        match valid with
        | [] => mret room1
        | _ :: _ =>
            start_idx ← Sampling.choice valid;
            duration ← Sampling.integers (room_duration self).1
                                         ((room_duration self).2 + 1);
            last ← lift (getitem day_indices (-1));
            let end_idx := Z.min (start_idx + duration) (last + 1) in
            lift (fill_room1 n_minutes inside sleeping
                             (range start_idx end_idx) room1)
        end) room1) room1.

(** [len(self.timestamps)] *)
Definition len_timestamps (self : t) : result Z :=
  match timestamps self with
  | Some ts => Ok (len ts)
  | None => Raise (TypeError "object of type 'NoneType' has no len()")
  end.

(** The innermost loop of [_generate_window_state]. *)
Fixpoint fill_window (inside sleeping : list Z)
    (idx : list Z) (window_state : list Z) : result (list Z) :=
  match idx with
  | [] => mret window_state
  | i :: rest =>
      stop ← away_or_asleep inside sleeping i;
      if stop : bool then mret window_state
      else
        window_state' ← setitem window_state i 1;
        fill_window inside sleeping rest window_state'
  end.

Definition _generate_window_state (self : t) (tf : time_features)
    (inside sleeping : list Z) : M (list Z) :=
  n ← lift (len_timestamps self);
  let window_state := zeros n in
  for_each (_get_day_indices tf) (λ day_indices window_state,
    n_opens ← Sampling.integers (window_open_per_day self).1
                                ((window_open_per_day self).2 + 1);
    for_range n_opens (λ window_state,
      valid ← lift (valid_indices inside sleeping day_indices);
      match valid with
      | [] => mret window_state
      | _ :: _ =>
          start_idx ← Sampling.choice valid;
          duration ← Sampling.integers (window_open_duration self).1
                                       ((window_open_duration self).2 + 1);
          last ← lift (getitem day_indices (-1));
          lift (fill_window inside sleeping
                  (range start_idx (Z.min (start_idx + duration) (last + 1)))
                  window_state)
      end) window_state) window_state.

(** [(inside[1:] != inside[:-1]).astype(int)] *)
Definition transitions (inside : list Z) : list Z :=
  zip_with (λ a b, if a =? b then 0 else 1)
           (drop 1 inside) (take (length inside - 1) inside).

(** [a[1:] = v] for a one-dimensional [v]: shapes must agree, a
    one-element [v] is broadcast. *)
Definition assign_from_1 (a v : list Z) : result (list Z) :=
  let tail_len := length (drop 1 a) in
  if bool_decide (length v = tail_len) then Ok (take 1 a ++ v)
  else match v with
       | [x] => Ok (take 1 a ++ replicate tail_len x)
       | _ => Raise (ValueError "could not broadcast input array")
       end.

(** The innermost loop of [_generate_door_state]. *)
Fixpoint fill_door (n : Z) (idx : list Z) (door_state : list Z)
    : result (list Z) :=
  match idx with
  | [] => mret door_state
  | i :: rest =>
      if n <=? i then mret door_state
      else
        door_state' ← setitem door_state i 1;
        fill_door n rest door_state'
  end.

Definition _generate_door_state (self : t) (tf : time_features)
    (inside sleeping : list Z) : M (list Z) :=
  n ← lift (len_timestamps self);
  let door_state := zeros n in
  door_state ← lift (assign_from_1 door_state (transitions inside));
  for_each (_get_day_indices tf) (λ day_indices door_state,
    n_opens ← Sampling.integers (door_open_per_day self).1
                                ((door_open_per_day self).2 + 1);
    for_range n_opens (λ door_state,
      valid ← lift (valid_indices inside sleeping day_indices);
      match valid with
      | [] => mret door_state
      | _ :: _ =>
          start_idx ← Sampling.choice valid;
          duration ← Sampling.integers (door_open_duration self).1
                                       ((door_open_duration self).2 + 1);
          last ← lift (getitem day_indices (-1));
          lift (fill_door n
                  (range start_idx (Z.min (start_idx + duration) (last + 1)))
                  door_state)
      end) door_state) door_state.

(** The body of [generate] once a timeline is known to be bound. *)
Definition compute_timeline (self : t) (timestamps : list Timestamp)
    : M timeline :=
  let tf := extract_time_features timestamps in
  let inside := _generate_inside self tf in
  let sleeping := _generate_sleeping self tf in
  room1 ← _generate_room1 self tf inside sleeping;
  windows ← _generate_window_state self tf inside sleeping;
  doors ← _generate_door_state self tf inside sleeping;
  mret (inside, sleeping, room1, windows, doors).

(** [generate] returns its result (or the exception it raised) together
    with the person as the call leaves it. *)
Definition generate (self : t) : result timeline * t :=
  match _timeline_cache self with
  | Some cache => (Ok cache, self)
  | None =>
      match timestamps self with
      | None =>
          (Raise (ValueError
             "Timestamps must be set using set_timeline before generating timeline."),
           self)
      | Some ts =>
          match compute_timeline self ts (rng self) with
          | (Ok cache, g) =>
              (Ok cache, with_state self g (timestamps self) (Some cache))
          | (Raise e, g) =>
              (Raise e, with_state self g (timestamps self) None)
          end
      end
  end.

(** A cached tuple always has five components, so it is truthy. *)
Definition get_room1_state (self : t) : option (list Z) :=
  match _timeline_cache self with
  | Some (_, _, room1, _, _) => Some room1
  | None => None
  end.

Definition get_window_state (self : t) : option (list Z) :=
  match _timeline_cache self with
  | Some (_, _, _, windows, _) => Some windows
  | None => None
  end.

Definition get_door_state (self : t) : option (list Z) :=
  match _timeline_cache self with
  | Some (_, _, _, _, doors) => Some doors
  | None => None
  end.

End Person.

(** ** numpy arrays of mixed element type

    [np.logical_or] is applied to integer arrays, to the boolean arrays it
    returns, and (when a person has not generated) to [None].  An operand
    that is [None] becomes a zero-dimensional object array, which forces the
    object loop: both operands are read as Python objects and combined with
    Python's [or], which returns one of its operands. *)

Inductive pyobj : Type :=
| PyNone
| PyInt (z : Z)
| PyBool (b : bool).

Inductive ndarray : Type :=
| IntArray (a : list Z)
| BoolArray (a : list bool)
| ObjectArray (a : list pyobj).

Definition obj_truthy (o : pyobj) : bool :=
  match o with
  | PyNone => false
  | PyInt z => truthy z
  | PyBool b => b
  end.

Definition obj_or (x y : pyobj) : pyobj := if obj_truthy x then x else y.

Definition as_objects (a : ndarray) : list pyobj :=
  match a with
  | IntArray l => PyInt <$> l
  | BoolArray l => PyBool <$> l
  | ObjectArray l => l
  end.

Definition is_object_array (a : ndarray) : bool :=
  match a with
  | ObjectArray _ => true
  | _ => false
  end.

(** Broadcasting of two one-dimensional operands. *)
Definition broadcast {A B C} (f : A → B → C) (a : list A) (b : list B)
    : result (list C) :=
  if bool_decide (length a = length b) then Ok (zip_with f a b)
  else match a, b with
       | [x], _ => Ok (f x <$> b)
       | _, [y] => Ok ((λ x, f x y) <$> a)
       | _, _ => Raise (ValueError "operands could not be broadcast together")
       end.

(** [np.logical_or(x1, x2)] for an array [x1] and an [x2] that is an array
    or [None]. *)
Definition np_logical_or (x1 : ndarray) (x2 : option ndarray) : result ndarray :=
  match x2 with
  | None => Ok (ObjectArray ((λ x, obj_or x PyNone) <$> as_objects x1))
  | Some x2 =>
      if is_object_array x1 || is_object_array x2 then
        ObjectArray <$> broadcast obj_or (as_objects x1) (as_objects x2)
      else
        BoolArray <$> broadcast (λ x y, obj_truthy x || obj_truthy y)
                                (as_objects x1) (as_objects x2)
  end.

(** [int(o)] *)
Definition obj_int (o : pyobj) : result Z :=
  match o with
  | PyNone =>
      Raise (TypeError "int() argument must be a string, a bytes-like object or a real number, not 'NoneType'")
  | PyInt z => Ok z
  | PyBool b => Ok (if b then 1 else 0)
  end.

Fixpoint map_result {A B} (f : A → result B) (l : list A) : result (list B) :=
  match l with
  | [] => Ok []
  | x :: l' => y ← f x; ys ← map_result f l'; mret (y :: ys)
  end.

(** [a.astype(int)] *)
Definition astype_int (a : ndarray) : result (list Z) :=
  match a with
  | IntArray l => Ok l
  | BoolArray l => Ok ((λ b : bool, if b then 1 else 0) <$> l)
  | ObjectArray l => map_result obj_int l
  end.

(** [a[i:j] = v] for a scalar [v]: slice bounds are clipped as Python clips
    them, and an empty slice is left alone. *)
Definition slice_bound {A} (a : list A) (i : Z) : nat :=
  Z.to_nat (if i <? 0 then Z.max (i + len a) 0 else Z.min i (len a)).

Definition slice_assign {A} (a : list A) (i j : Z) (v : A) : list A :=
  let lo := slice_bound a i in
  let hi := slice_bound a j in
  if (lo <? hi)%nat then take lo a ++ replicate (hi - lo) v ++ drop hi a
  else a.

(** ** Apartment ([simulation/apartment.py]) *)

(** Person objects are shared between the caller and the apartment: they
    live in a store and the apartment keeps their addresses. *)
Abbreviation store := (nat → Person.t).

Module Apartment.

Record t : Type := mk {
  timestamps : list Timestamp;
  persons : list nat;
  prob_movement : Q;
  min_duration : Z;
  max_duration : Z;
  seed : option Z;
  _motion_state : option (list Z)
}.

Section Construction.
(** The raw output of the process-wide legacy generator after
    [np.random.seed(seed)]. *)
Variable MT19937 : Z → nat → Z.

(** The constructor also reseeds the process-wide generator, which is
    threaded through as an argument and a result. *)
Definition __init__ (timestamps : list Timestamp)
    (persons : option (list nat)) (prob_movement : Q)
    (min_duration max_duration : Z) (seed : option Z)
    (global : Generator) : t * Generator :=
  (mk timestamps (default [] persons) prob_movement
      min_duration max_duration seed None,
   match seed with
   | Some s => mkGenerator (MT19937 s) 0
   | None => global
   end).
End Construction.

Definition get_motion (self : t) : option (list Z) := _motion_state self.

Definition _aggregate_person_state (self : t) (st : store)
    (state_func : Person.t → option (list Z)) : result (list Z) :=
  let state := IntArray (zeros (len (timestamps self))) in
  state ← foldl (λ state person,
                   state ← state;
                   let person_state := state_func (st person) in
                   np_logical_or state (IntArray <$> person_state))
                (Ok state) (persons self);
  astype_int state.

Definition get_window (self : t) (st : store) : result (list Z) :=
  _aggregate_person_state self st Person.get_window_state.

Definition get_door (self : t) (st : store) : result (list Z) :=
  _aggregate_person_state self st Person.get_door_state.

(** [room1_state[i]] where [room1_state] may be [None]. *)
Definition subscript (room1_state : option (list Z)) (i : Z) : result Z :=
  match room1_state with
  | Some a => getitem a i
  | None => Raise (TypeError "'NoneType' object is not subscriptable")
  end.

Definition rand_lt (u p : Q) : bool := negb (Qle_bool p u).

(** The [while] loop of [_simulate_person_motion].  [fuel] bounds the
    number of iterations; [None] means the bound was reached.  [bursts]
    is a ghost record of the spans marked so far, oldest first: it is not
    in the source and does not influence the loop. *)
Fixpoint motion_loop (fuel : nat) (n : Z) (room1_state : option (list Z))
    (prob_movement : Q) (min_duration max_duration : Z)
    (i : Z) (person_motion : list Z) (bursts : list (Z * Z)) (g : Generator)
    : option (result (list Z * list (Z * Z)) * Generator) :=
  if i <? n then
    match fuel with
    | O => None
    | S fuel' =>
        match subscript room1_state i with
        | Raise e => Some (Raise e, g)
        | Ok v =>
            if 0 <? v then
              let '(u, g1) := Sampling.rand g in
              if rand_lt u prob_movement then
                match Sampling.integers min_duration (max_duration + 1) g1 with
                | (Raise e, g2) => Some (Raise e, g2)
                | (Ok duration, g2) =>
                    let end_idx := Z.min (i + duration) n in
                    motion_loop fuel' n room1_state prob_movement
                      min_duration max_duration end_idx
                      (slice_assign person_motion i end_idx 1)
                      (bursts ++ [(i, end_idx)]) g2
                end
              else
                motion_loop fuel' n room1_state prob_movement
                  min_duration max_duration (i + 1) person_motion bursts g1
            else
              motion_loop fuel' n room1_state prob_movement
                min_duration max_duration (i + 1) person_motion bursts g
        end
    end
  else Some (Ok (person_motion, bursts), g).

Definition _simulate_person_motion (fuel : nat) (self : t) (person : Person.t)
    (g : Generator) : option (result (list Z) * Generator) :=
  let room1_state := Person.get_room1_state person in
  let person_motion := zeros (len (timestamps self)) in
  match motion_loop fuel (len (timestamps self)) room1_state
          (prob_movement self) (min_duration self) (max_duration self)
          0 person_motion [] g with
  | Some (Ok (person_motion, _), g') => Some (Ok person_motion, g')
  | Some (Raise e, g') => Some (Raise e, g')
  | None => None
  end.

Fixpoint motion_of_persons (fuel : nat) (self : t) (st : store)
    (persons : list nat) (motion : ndarray) (g : Generator)
    : option (result ndarray * Generator) :=
  match persons with
  | [] => Some (Ok motion, g)
  | person :: rest =>
      match _simulate_person_motion fuel self (st person) g with
      | None => None
      | Some (Raise e, g') => Some (Raise e, g')
      | Some (Ok person_motion, g') =>
          match np_logical_or motion (Some (IntArray person_motion)) with
          | Raise e => Some (Raise e, g')
          | Ok motion' => motion_of_persons fuel self st rest motion' g'
          end
      end
  end.

Definition _generate_motion (fuel : nat) (self : t) (st : store)
    (g : Generator) : option (result (list Z) * Generator) :=
  let motion := IntArray (zeros (len (timestamps self))) in
  match motion_of_persons fuel self st (persons self) motion g with
  | None => None
  | Some (Raise e, g') => Some (Raise e, g')
  | Some (Ok motion, g') => Some (astype_int motion, g')
  end.

(** [generate] returns the apartment as the call leaves it, with the
    exception raised, if any. *)
Definition generate (fuel : nat) (self : t) (st : store) (g : Generator)
    : option (result t * Generator) :=
  match _generate_motion fuel self st g with
  | None => None
  | Some (Raise e, g') => Some (Raise e, g')
  | Some (Ok motion, g') =>
      Some (Ok (mk (timestamps self) (persons self) (prob_movement self)
                   (min_duration self) (max_duration self) (seed self)
                   (Some motion)), g')
  end.

End Apartment.

(** ** Several persons in one process

    Calls of [generate] on persons of the store, in a given order; what a
    call returns (or raises) is dropped by the caller, its effect on the
    person stays. *)

Definition generate_at (k : nat) (st : store) : result timeline * store :=
  let '(r, p) := Person.generate (st k) in (r, <[k := p]> st).

Definition generate_each (ks : list nat) (st : store) : store :=
  foldl (λ st k, (generate_at k st).2) st ks.

(** ** Properties named by the specification *)

(** Every index at which [a] is set lies where the person is inside and
    awake. *)
Definition confined (inside sleeping a : list Z) : Prop :=
  ∀ (k : nat) (v : Z), a !! k = Some v → v ≠ 0 →
    inside !! k = Some 1 ∧ sleeping !! k = Some 0.

(** The sleep rule in the words of the specification: a plain interval when
    [start <= end], a wrapping one when [start > end]. *)
Definition spec_sleeping (start end_ : Z) (h : Q) : Prop :=
  if start <=? end_
  then (inject_Z start <= h)%Q ∧ (h < inject_Z end_)%Q
  else (inject_Z start <= h)%Q ∨ (h < inject_Z end_)%Q.

(** The sleep rule with the case split the source makes: the plain interval
    only when [start < end]. *)
Definition code_sleeping (start end_ : Z) (h : Q) : Prop :=
  if start <? end_
  then (inject_Z start <= h)%Q ∧ (h < inject_Z end_)%Q
  else (inject_Z start <= h)%Q ∨ (h < inject_Z end_)%Q.

(** A single day of 1440 one-minute timestamps; [day] counts days since the
    epoch. *)
Definition single_day_axis (day : Z) : list Timestamp :=
  (λ i, day * ns_per_day + i * ns_per_minute) <$> seqZ 0 1440.

(** The elementwise logical OR of [arrays] over an axis of [n] instants. *)
Definition elementwise_or (n : nat) (arrays : list (list Z)) : list Z :=
  (λ k : nat, if existsb (λ a : list Z, truthy (a !!! k)) arrays then 1 else 0)
    <$> seq 0 n.

(** For each instant of an axis of [n], whether some array is set there. *)
Definition any_truthy (n : nat) (arrays : list (list Z)) : list bool :=
  (λ k : nat, existsb (λ a : list Z, truthy (a !!! k)) arrays) <$> seq 0 n.

(** The window and door arrays held by the persons at [ps]. *)
Definition window_arrays (st : store) (ps : list nat) : list (list Z) :=
  (λ k, default [] (Person.get_window_state (st k))) <$> ps.

Definition door_arrays (st : store) (ps : list nat) : list (list Z) :=
  (λ k, default [] (Person.get_door_state (st k))) <$> ps.

(** The same apartment with another list of persons. *)
Definition with_persons (self : Apartment.t) (ps : list nat) : Apartment.t :=
  Apartment.mk (Apartment.timestamps self) ps (Apartment.prob_movement self)
    (Apartment.min_duration self) (Apartment.max_duration self)
    (Apartment.seed self) (Apartment._motion_state self).

(** What the running [state] of [_aggregate_person_state] satisfies once the
    arrays [acc] have been merged into it. *)
Definition merged (n : nat) (acc : list (list Z)) (state : ndarray) : Prop :=
  is_object_array state = false ∧
  obj_truthy <$> as_objects state = any_truthy n acc ∧
  astype_int state = Ok (elementwise_or n acc).

(** No two bursts overlap: a burst recorded later starts at or after the end
    of every burst recorded before it. *)
Definition pairwise_disjoint (bursts : list (Z * Z)) : Prop :=
  ∀ (j1 j2 : nat) s1 e1 s2 e2,
    (j1 < j2)%nat →
    bursts !! j1 = Some (s1, e1) → bursts !! j2 = Some (s2, e2) → e1 <= s2.

(** A burst is a span [[s, e)] of the axis that starts where [room1] is set
    and covers at most [max_duration] indices. *)
Definition burst_ok (n : Z) (room1_state : option (list Z)) (max_duration : Z)
    (b : Z * Z) : Prop :=
  0 <= b.1 < n ∧ b.1 <= b.2 <= n ∧ b.2 - b.1 <= max_duration ∧
  ∃ room1 v, room1_state = Some room1 ∧
             room1 !! Z.to_nat b.1 = Some v ∧ 0 < v.

(** Index [k] lies in one of the bursts. *)
Definition in_burst (bursts : list (Z * Z)) (k : nat) : Prop :=
  ∃ s e, (s, e) ∈ bursts ∧ s <= Z.of_nat k < e.

(** What holds of the cursor [i], the array and the ghost record at the head
    of every iteration of the motion loop. *)
Definition motion_inv (n : Z) (room1_state : option (list Z))
    (max_duration : Z) (i : Z) (pm : list Z) (bursts : list (Z * Z)) : Prop :=
  0 <= i <= n ∧
  len pm = n ∧
  (∀ b, b ∈ bursts → burst_ok n room1_state max_duration b ∧ b.2 <= i) ∧
  pairwise_disjoint bursts ∧
  (∀ (k : nat) v, pm !! k = Some v →
     (v = 1 ∧ in_burst bursts k) ∨ (v = 0 ∧ ¬ in_burst bursts k)).

(** ** Concrete configurations *)

(** A stand-in for a seeded bit generator. *)
Definition sample_stream (seed : Z) (k : nat) : Z := seed + 7919 * Z.of_nat k.

(** Twenty-four hourly timestamps of one day. *)
Definition hourly_axis (day : Z) : list Timestamp :=
  (λ i, day * ns_per_day + i * ns_per_hour) <$> seqZ 0 24.

(** 2025-01-01, a Wednesday, in days since the epoch. *)
Definition new_year_2025 : Z := 20089.

(** The first resident of [scripts/generate_data.py]. *)
Definition alice : Person.t :=
  Person.__init__ sample_stream "Alice" [(8, 17)] [(9, 12); (16, 20)] (23, 6)
    (1, 2) (15, 60) (1, 3) (1, 3) (1, 3) (15, 60) (Some 123) 0.

(** The resident of the end-to-end scenario; what the scenario leaves open
    is taken from [alice]. *)
Definition scenario_person : Person.t :=
  Person.__init__ sample_stream "Resident" [(9, 17)] [(9, 12); (16, 20)] (23, 7)
    (1, 2) (15, 60) (1, 3) (1, 3) (1, 3) (15, 60) (Some 123) 0.

(** The second resident of [scripts/generate_data.py], with a seed of one's
    choice. *)
Definition bob (seed : Z) : Person.t :=
  Person.__init__ sample_stream "Bob" [(7, 16)] [(9, 12); (13, 20)] (22, 6)
    (0, 2) (15, 60) (1, 3) (15, 60) (1, 3) (15, 60) (Some seed) 0.

(** A store in which addresses 0 and 1 hold two persons built like [alice],
    under different names, and every other address holds a [bob]; all are
    bound to the same hourly axis. *)
Definition household : nat → Person.t := λ k,
  Person.set_timeline
    match k with
    | 0%nat => alice
    | 1%nat =>
        Person.__init__ sample_stream "Alice's twin" [(8, 17)] [(9, 12); (16, 20)]
          (23, 6) (1, 2) (15, 60) (1, 3) (1, 3) (1, 3) (15, 60) (Some 123) 1
    | _ => bob (Z.of_nat k)
    end
    (hourly_axis new_year_2025).

(** The apartment of [scripts/generate_data.py] over the hourly axis, with
    the residents at addresses 0 and 1, built without a seed while the
    process-wide generator is in the state [global]. *)
Definition flat_of (global : Generator) : Apartment.t * Generator :=
  Apartment.__init__ sample_stream (hourly_axis new_year_2025)
    (Some [0; 1]%nat) (Qmake 3 10) 1 10 None global.

Definition flat : Apartment.t := (flat_of (mkGenerator (sample_stream 0) 0)).1.

(** The household after the residents at addresses 0 and 1 have generated. *)
Definition settled : nat → Person.t := generate_each [0; 1]%nat household.

(** An apartment with the resident at address 0 alone, certain movement and
    a duration range that reaches below zero; and a state of the
    process-wide generator whose fourth raw draw is 0 and all others 6. *)
Definition restless : Apartment.t :=
  (Apartment.__init__ sample_stream (hourly_axis new_year_2025)
     (Some [0]%nat) 1 (-3) 3 None (mkGenerator (sample_stream 0) 0)).1.

Definition jumpy : Generator :=
  mkGenerator (λ k, if (k =? 3)%nat then 0 else 6) 0.

(** [alice] with a sleep interval whose two bounds coincide. *)
Definition equal_bounds_sleeper : Person.t :=
  Person.__init__ sample_stream "Alice" [(8, 17)] [(9, 12); (16, 20)] (5, 5)
    (1, 2) (15, 60) (1, 3) (1, 3) (1, 3) (15, 60) (Some 123) 0.





(** The scenario's resident bound to that day, the five arrays one run of
    [generate] returns for it, and the person after the run: nine draws
    consumed, the arrays cached. *)
Definition scenario_bound : Person.t :=
  Person.set_timeline scenario_person (single_day_axis new_year_2025).

Definition returned (r : result timeline * Person.t) : timeline :=
  match r with
  | (Ok tl, _) => tl
  | (Raise _, _) => ([], [], [], [], [])
  end.

Definition scenario_timeline : timeline :=
  Eval vm_compute in returned (Person.generate scenario_bound).

Definition scenario_after : Person.t :=
  Person.with_state scenario_bound
    (mkGenerator (bits (Person.rng scenario_bound)) 9)
    (Some (single_day_axis new_year_2025)) (Some scenario_timeline).

(** [a[i] = 1] for every [i] of [idx], in order. *)
Definition mark (a : list Z) (idx : list Z) : list Z :=
  foldl (λ a i, <[Z.to_nat i := 1]> a) a idx.

(** The person is inside and awake at position [k]. *)
Definition awake_at (inside sleeping : list Z) (k : nat) : Prop :=
  ∃ x, inside !! k = Some x ∧ x ≠ 0 ∧ sleeping !! k = Some 0.

(** What every pass of the window and room fills preserves. *)
Definition window_inv (inside sleeping w : list Z) : Prop :=
  length w = length inside ∧
  ∀ k v, w !! k = Some v → v ≠ 0 → awake_at inside sleeping k.

(** ** Further properties read off the code *)

(** Strictly increasing. *)
Fixpoint ascending (l : list Z) : Prop :=
  match l with
  | [] => True
  | x :: l' => (∀ y, y ∈ l' → x < y) ∧ ascending l'
  end.

(** Every entry is 0 or 1. *)
Definition binary (a : list Z) : Prop :=
  ∀ (k : nat) v, a !! k = Some v → v = 0 ∨ v = 1.

(** An array of the axis' length with entries 0 or 1. *)
Definition shape (n : nat) (a : list Z) : Prop := length a = n ∧ binary a.

(** Every configured range of a person has [low <= high]. *)
Definition well_ranged (p : Person.t) : Prop :=
  (Person.room_per_day p).1 <= (Person.room_per_day p).2 ∧
  (Person.room_duration p).1 <= (Person.room_duration p).2 ∧
  (Person.window_open_per_day p).1 <= (Person.window_open_per_day p).2 ∧
  (Person.window_open_duration p).1 <= (Person.window_open_duration p).2 ∧
  (Person.door_open_per_day p).1 <= (Person.door_open_per_day p).2 ∧
  (Person.door_open_duration p).1 <= (Person.door_open_duration p).2.

(** The outcome of a computation is a value that satisfies [P], or the
    sampler's refusal of an empty range, which needs [Q] to fail. *)
Definition safe {A} (Q : Prop) (P : A → Prop) (r : result A * Generator) : Prop :=
  match r.1 with
  | Ok a => P a
  | Raise e => e = ValueError "low >= high" ∧ ¬ Q
  end.

(** What the running [state] of [_aggregate_person_state] is once it has
    met a person that has not generated and has then merged the arrays
    [acc]. *)
Definition merged_objects (n : nat) (acc : list (list Z)) (state : ndarray) : Prop :=
  state = ObjectArray
            match acc with
            | [] => replicate n PyNone
            | _ :: _ => PyInt <$> elementwise_or n acc
            end.

(** ** The driver ([scripts/generate_data.py]) *)




(** An apartment over the hourly axis with the resident at address 0 alone,
    certain movement and bursts of no length. *)
Definition stalled : Apartment.t :=
  (Apartment.__init__ sample_stream (hourly_axis new_year_2025)
     (Some [0]%nat) 1 0 0 None (mkGenerator (sample_stream 0) 0)).1.

(** [create_persons]: the two residents, each bound to the timeline.  Both
    are given a seed, so no entropy is read. *)
Definition create_persons (PCG64 : Z → nat → Z) (timestamps : list Timestamp)
    : list Person.t :=
  let person1 :=
    Person.__init__ PCG64 "Alice" [(8, 17)] [(9, 12); (16, 20)] (23, 6)
      (1, 2) (15, 60) (1, 3) (1, 3) (1, 3) (15, 60) (Some 123) 0 in
  let person2 :=
    Person.__init__ PCG64 "Bob" [(7, 16)] [(9, 12); (13, 20)] (22, 6)
      (0, 2) (15, 60) (1, 3) (15, 60) (1, 3) (15, 60) (Some 23) 0 in
  (λ person, Person.set_timeline person timestamps) <$> [person1; person2].

(** A store holding the persons of a list at the addresses 0, 1, ...; the
    addresses beyond the list are never read. *)
Definition store_of (persons : list Person.t) (unused : Person.t) : nat → Person.t :=
  λ k, default unused (persons !! k).

(** [for person in persons: person.generate()]: the first exception ends the
    loop and is passed on. *)
Fixpoint generate_in_turn (ks : list nat) (st : store) : result (nat → Person.t) :=
  match ks with
  | [] => Ok st
  | k :: rest =>
      match generate_at k st with
      | (Ok _, st') => generate_in_turn rest st'
      | (Raise e, _) => Raise e
      end
  end.

(** The part of [generate_sensor_data] that follows the environmental
    columns: the persons are created and generated, the apartment is built
    over them and generated, and its three sensors are read.  The
    environmental generators before it are floating-point code; all they
    leave behind for this part is the state [global] of the process-wide
    generator.  [None] means that the motion loop met its fuel bound. *)
Definition presence_sensors (PCG64 MT19937 : Z → nat → Z) (fuel : nat)
    (timeline : list Timestamp) (global : Generator)
    : option (result (list Z * list Z * option (list Z)) * Generator) :=
  let persons := create_persons PCG64 timeline in
  let st := store_of persons (Person.set_timeline alice timeline) in
  match generate_in_turn (seq 0 (length persons)) st with
  | Raise e => Some (Raise e, global)
  | Ok st =>
      let '(apartment, global) :=
        Apartment.__init__ MT19937 timeline (Some (seq 0 (length persons)))
          (Qmake 3 10) 1 10 None global in
      match Apartment.generate fuel apartment st global with
      | None => None
      | Some (Raise e, global) => Some (Raise e, global)
      | Some (Ok apartment, global) =>
          Some (sensor_window ← Apartment.get_window apartment st;
                sensor_door ← Apartment.get_door apartment st;
                mret (sensor_window, sensor_door, Apartment.get_motion apartment),
                global)
      end
  end.

(** A store whose every person sleeps around the clock, after the person at
    address 0 has generated; and the apartment over that person alone. *)
Definition dormitory : nat → Person.t :=
  generate_each [0]%nat
    (λ _, Person.set_timeline equal_bounds_sleeper (hourly_axis new_year_2025)).

Definition dormitory_flat : Apartment.t :=
  (Apartment.__init__ sample_stream (hourly_axis new_year_2025)
     (Some [0]%nat) (Qmake 3 10) 1 10 None (mkGenerator (sample_stream 0) 0)).1.

(** The household after only the resident at address 1 has generated. *)
Definition half_settled : nat → Person.t := generate_each [1]%nat household.

(** The stream [g'] is [g] after some draws: the same raw sequence, read at
    least as far. *)
Definition stream_advances (g g' : Generator) : Prop :=
  bits g' = bits g ∧ (drawn g ≤ drawn g')%nat.

(** A computation only ever moves its stream forward. *)
Definition advancing {A} (m : M A) : Prop := ∀ g, stream_advances g (m g).2.

(** * Verification *)

(** ** Results and the monad *)

Lemma bind_result_Ok {A B} (m : result A) (f : A → result B) (b : B) :
  m ≫= f = Ok b → ∃ a, m = Ok a ∧ f a = Ok b.
Proof. destruct m as [a|e]; simpl; [eauto | discriminate]. Qed.

Lemma bind_M_Ok {A B} (m : M A) (f : A → M B) g b g' :
  (m ≫= f) g = (Ok b, g') → ∃ a g1, m g = (Ok a, g1) ∧ f a g1 = (Ok b, g').
Proof.
  unfold mbind, M_bind. destruct (m g) as [[a|e] g1]; [eauto | discriminate].
Qed.

Lemma lift_Ok {A} (r : result A) g a g' :
  lift r g = (Ok a, g') → r = Ok a ∧ g' = g.
Proof. unfold lift. intros [= -> ->]. done. Qed.

Lemma ret_M_Ok {A} (a b : A) (g g' : Generator) :
  (mret a : M A) g = (Ok b, g') → b = a ∧ g' = g.
Proof. unfold mret, M_ret. intros [= -> ->]. done. Qed.

(** An invariant of the loop body is an invariant of the loop. *)
Lemma for_each_invariant {A S} (P : S → Prop) (xs : list A) (body : A → S → M S) :
  (∀ x s g s' g', x ∈ xs → P s → body x s g = (Ok s', g') → P s') →
  ∀ s g s' g', P s → for_each xs body s g = (Ok s', g') → P s'.
Proof.
  induction xs as [|x xs IH]; intros Hbody s g s' g' Hs Hrun; simpl in Hrun.
  - apply ret_M_Ok in Hrun as [-> _]. done.
  - apply bind_M_Ok in Hrun as (s1 & g1 & H1 & H2).
    eapply IH; [| |exact H2].
    + intros y t h t' h' Hy. apply Hbody. by right.
    + eapply Hbody; [by left | exact Hs | exact H1].
Qed.

Lemma for_range_invariant {S} (P : S → Prop) (k : Z) (body : S → M S) :
  (∀ s g s' g', P s → body s g = (Ok s', g') → P s') →
  ∀ s g s' g', P s → for_range k body s g = (Ok s', g') → P s'.
Proof.
  intros Hbody. unfold for_range. apply for_each_invariant.
  intros _ s g s' g' _. apply Hbody.
Qed.

(** One pass of an event loop that returned either met an empty [valid] and
    left the array alone, or sampled a start and a duration and ran the
    fill, whose equation is left in [Hfill]. *)
Ltac event_cases Hbody Hfill :=
  let valid := fresh "valid" in
  apply bind_M_Ok in Hbody as (valid & ? & _ & Hbody);
  destruct valid as [|? ?];
  [ apply ret_M_Ok in Hbody as [-> _]
  | apply bind_M_Ok in Hbody as (? & ? & _ & Hbody);
    apply bind_M_Ok in Hbody as (? & ? & _ & Hbody);
    apply bind_M_Ok in Hbody as (? & ? & _ & Hbody);
    apply lift_Ok in Hbody as [Hfill _] ].

(** ** Array access *)

Lemma getitem_Ok {A} (a : list A) i v :
  getitem a i = Ok v ↔
  0 <= norm_index (len a) i < len a ∧ a !! Z.to_nat (norm_index (len a) i) = Some v.
Proof.
  unfold getitem.
  destruct (_ && _) eqn:Hb.
  - apply andb_true_iff in Hb as [H1 H2].
    apply Z.leb_le in H1. apply Z.ltb_lt in H2.
    destruct (a !! _) eqn:E; split; try intros [= ->]; try intros [_ [= ->]];
      try done.
  - split; [discriminate|]. intros [[H1 H2] _].
    apply Z.leb_le in H1. apply Z.ltb_lt in H2. rewrite H1, H2 in Hb. done.
Qed.

Lemma getitem_nonneg {A} (a : list A) i v :
  0 <= i → getitem a i = Ok v ↔ a !! Z.to_nat i = Some v.
Proof.
  intros Hi. rewrite getitem_Ok. unfold norm_index, len.
  destruct (Z.ltb_spec i 0) as [Hneg|_]; [lia|]. split; [by intros [_ ?]|].
  intros Hl. split; [|done]. apply lookup_lt_Some in Hl. lia.
Qed.

Lemma setitem_Ok {A} (a : list A) i v a' :
  setitem a i v = Ok a' ↔
  0 <= norm_index (len a) i < len a ∧ a' = <[Z.to_nat (norm_index (len a) i) := v]> a.
Proof.
  unfold setitem.
  destruct (_ && _) eqn:Hb.
  - apply andb_true_iff in Hb as [H1 H2].
    apply Z.leb_le in H1. apply Z.ltb_lt in H2.
    split; [intros [= <-]; done | intros [_ ->]; done].
  - split; [discriminate|]. intros [[H1 H2] _].
    apply Z.leb_le in H1. apply Z.ltb_lt in H2. rewrite H1, H2 in Hb. done.
Qed.

Lemma setitem_length {A} (a : list A) i v a' :
  setitem a i v = Ok a' → length a' = length a.
Proof. intros [_ ->]%setitem_Ok. apply length_insert. Qed.

Lemma zeros_length n : length (zeros n) = Z.to_nat n.
Proof. apply length_replicate. Qed.

Lemma zeros_lookup n k v : zeros n !! k = Some v → v = 0.
Proof. unfold zeros. intros [-> _]%lookup_replicate. done. Qed.

(** ** Presence and sleep *)

Section Person_facts.
Import Person.

Lemma inside_length self ts :
  length (_generate_inside self (extract_time_features ts)) = length ts.
Proof.
  unfold _generate_inside. simpl.
  rewrite length_zip_with, !length_fmap. lia.
Qed.

Lemma sleeping_length self ts :
  length (_generate_sleeping self (extract_time_features ts)) = length ts.
Proof.
  unfold _generate_sleeping. destruct (sleep_hours self). simpl.
  by rewrite !length_fmap.
Qed.

Lemma inside_binary self tf k v :
  _generate_inside self tf !! k = Some v → v = 0 ∨ v = 1.
Proof.
  unfold _generate_inside. intros H.
  apply lookup_zip_with_Some in H as (h & w & -> & _ & _).
  destruct (_is_outside _ _ _); auto.
Qed.

Lemma sleeping_binary self tf k v :
  _generate_sleeping self tf !! k = Some v → v = 0 ∨ v = 1.
Proof.
  unfold _generate_sleeping. destruct (sleep_hours self) as [s e].
  rewrite list_lookup_fmap. destruct (hours tf !! k); simpl; [|done].
  intros [= <-]. destruct (if s <? e then _ else _); auto.
Qed.

(** ** The predicate read by the fills *)

Lemma away_or_asleep_awake inside sleeping i b :
  away_or_asleep inside sleeping i = Ok b ↔
  awake_inside inside sleeping i = Ok (negb b).
Proof.
  unfold away_or_asleep, awake_inside.
  destruct (getitem inside i) as [x|e]; simpl; [|done].
  destruct (truthy x); simpl.
  - destruct (getitem sleeping i) as [s|e]; simpl; [|done].
    split; intros [= E]; f_equal; destruct b, (truthy s); done.
  - split; intros [= E]; f_equal; destruct b; done.
Qed.

Lemma awake_inside_true inside sleeping i :
  length sleeping = length inside →
  awake_inside inside sleeping i = Ok true →
  0 <= norm_index (len inside) i < len inside ∧
  awake_at inside sleeping (Z.to_nat (norm_index (len inside) i)).
Proof.
  intros Hlen. unfold awake_inside.
  destruct (getitem inside i) as [x|e] eqn:Ei; simpl; [|done].
  destruct (truthy x) eqn:Ex; simpl; [|done].
  destruct (getitem sleeping i) as [s|e] eqn:Es; simpl; [|done].
  intros [= E]. apply getitem_Ok in Ei as [Hr Hi]. apply getitem_Ok in Es as [_ Hs].
  replace (len sleeping) with (len inside) in Hs by (unfold len; lia).
  split; [done|]. exists x. split; [done|]. split.
  - unfold truthy in Ex. destruct (Z.eqb_spec x 0); done.
  - unfold truthy in E. destruct (Z.eqb_spec s 0); [by subst|done].
Qed.

(** ** The window fill *)

Lemma fill_window_invariant inside sleeping idx :
  length sleeping = length inside →
  ∀ w w', window_inv inside sleeping w →
    fill_window inside sleeping idx w = Ok w' →
    window_inv inside sleeping w'.
Proof.
  intros Hlen. induction idx as [|i idx IH]; intros w w' Hw Hrun; simpl in Hrun.
  - by injection Hrun as <-.
  - apply bind_result_Ok in Hrun as (stop & Hstop & Hrun).
    destruct stop; [by injection Hrun as <-|].
    apply bind_result_Ok in Hrun as (w1 & Hset & Hrun).
    apply (IH w1); [|done].
    apply away_or_asleep_awake, awake_inside_true in Hstop as [Hr Hawake]; [|done].
    destruct Hw as [Hwl Hw]. apply setitem_Ok in Hset as [_ ->].
    replace (len w) with (len inside) by (unfold len; lia).
    split; [by rewrite length_insert|].
    intros k v Hk Hv.
    destruct (decide (k = Z.to_nat (norm_index (len inside) i))) as [->|Hne].
    + done.
    + rewrite list_lookup_insert_ne in Hk by done. eauto.
Qed.


Lemma zeros_window_inv inside sleeping :
  window_inv inside sleeping (zeros (len inside)).
Proof.
  split.
  - rewrite zeros_length. unfold len. lia.
  - intros k v Hk Hv. apply zeros_lookup in Hk. done.
Qed.

Lemma window_state_invariant self ts inside sleeping g w g' :
  timestamps self = Some ts →
  length inside = length ts →
  length sleeping = length inside →
  _generate_window_state self (extract_time_features ts) inside sleeping g
    = (Ok w, g') →
  window_inv inside sleeping w.
Proof.
  intros Hts Hli Hls Hrun. unfold _generate_window_state in Hrun.
  apply bind_M_Ok in Hrun as (n & g1 & Hn & Hrun).
  apply lift_Ok in Hn as [Hn ->]. unfold len_timestamps in Hn.
  rewrite Hts in Hn. injection Hn as <-.
  revert Hrun. apply for_each_invariant.
  - intros day_indices s h s' h' _ Hs Hbody.
    apply bind_M_Ok in Hbody as (n_opens & h1 & _ & Hbody).
    revert Hbody. apply for_range_invariant; [|done].
    clear -Hls. intros s g s' g' Hs Hbody.
    event_cases Hbody Hfill; [done|].
    eapply fill_window_invariant; [| |exact Hfill]; done.
  - replace (len ts) with (len inside) by (unfold len; lia).
    apply zeros_window_inv.
Qed.

(** ** The room fill *)

Lemma fill_room1_invariant n inside sleeping idx :
  length sleeping = length inside →
  ∀ r r', window_inv inside sleeping r →
    fill_room1 n inside sleeping idx r = Ok r' →
    window_inv inside sleeping r'.
Proof.
  intros Hlen. induction idx as [|i idx IH]; intros r r' Hr Hrun; simpl in Hrun.
  - by injection Hrun as <-.
  - destruct (n <=? i); [by injection Hrun as <-|].
    apply bind_result_Ok in Hrun as (c & Hc & Hrun).
    apply bind_result_Ok in Hrun as (r1 & Hset & Hrun).
    apply (IH r1); [|done].
    destruct c; [|by injection Hset as <-].
    apply awake_inside_true in Hc as [Hrange Hawake]; [|done].
    destruct Hr as [Hrl Hr]. apply setitem_Ok in Hset as [_ ->].
    replace (len r) with (len inside) by (unfold len; lia).
    split; [by rewrite length_insert|].
    intros k v Hk Hv.
    destruct (decide (k = Z.to_nat (norm_index (len inside) i))) as [->|Hne].
    + done.
    + rewrite list_lookup_insert_ne in Hk by done. eauto.
Qed.

Lemma room1_invariant self ts inside sleeping g r g' :
  length inside = length ts →
  length sleeping = length inside →
  _generate_room1 self (extract_time_features ts) inside sleeping g
    = (Ok r, g') →
  window_inv inside sleeping r.
Proof.
  intros Hli Hls Hrun. unfold _generate_room1 in Hrun. cbv zeta in Hrun.
  assert (len (hours (extract_time_features ts)) = len inside) as Hn.
  { simpl. unfold len. rewrite length_fmap. lia. }
  rewrite Hn in Hrun.
  destruct (len inside =? 0).
  { apply ret_M_Ok in Hrun as [-> _]. apply zeros_window_inv. }
  revert Hrun. apply for_each_invariant; [|apply zeros_window_inv].
  intros day_indices s h s' h' _ Hs Hbody.
  apply bind_M_Ok in Hbody as (n_periods & h1 & _ & Hbody).
  revert Hbody. apply for_range_invariant; [|done].
  clear -Hls. intros s g s' g' Hs Hbody.
  event_cases Hbody Hfill; [done|].
  eapply fill_room1_invariant; [| |exact Hfill]; done.
Qed.

(** ** The door fill *)

Lemma fill_door_keeps n idx :
  ∀ d d' k, fill_door n idx d = Ok d' → d !! k = Some 1 → d' !! k = Some 1.
Proof.
  induction idx as [|i idx IH]; intros d d' k Hrun Hk; simpl in Hrun.
  - by injection Hrun as <-.
  - destruct (n <=? i); [by injection Hrun as <-|].
    apply bind_result_Ok in Hrun as (d1 & Hset & Hrun).
    apply (IH d1 d' k Hrun).
    apply setitem_Ok in Hset as [Hr ->].
    destruct (decide (k = Z.to_nat (norm_index (len d) i))) as [->|Hne].
    + apply list_lookup_insert_eq. unfold len in *. lia.
    + by rewrite list_lookup_insert_ne.
Qed.

(** Every change of [inside] leaves its mark in the door array. *)
Lemma door_state_transitions self ts inside sleeping g d g' :
  timestamps self = Some ts →
  length inside = length ts →
  _generate_door_state self (extract_time_features ts) inside sleeping g
    = (Ok d, g') →
  ∀ k a b, inside !! k = Some a → inside !! S k = Some b → a ≠ b →
           d !! S k = Some 1.
Proof.
  intros Hts Hli Hrun k a b Ha Hb Hab. unfold _generate_door_state in Hrun.
  apply bind_M_Ok in Hrun as (n & g1 & Hn & Hrun).
  apply lift_Ok in Hn as [Hn ->]. unfold len_timestamps in Hn.
  rewrite Hts in Hn. injection Hn as <-.
  apply bind_M_Ok in Hrun as (d0 & g1 & Hd0 & Hrun).
  apply lift_Ok in Hd0 as [Hd0 ->].
  assert (d0 !! S k = Some 1) as Hk.
  { unfold assign_from_1 in Hd0.
    assert (length (transitions inside) = length (drop 1 (zeros (len ts)))) as Hlen.
    { unfold transitions. rewrite length_zip_with, !length_drop, length_take.
      rewrite zeros_length. unfold len. lia. }
    rewrite bool_decide_eq_true_2 in Hd0 by done. injection Hd0 as <-.
    apply lookup_lt_Some in Hb as Hlt.
    assert (take 1 (zeros (len ts)) = [0]) as ->.
    { unfold zeros, len. rewrite Nat2Z.id.
      destruct (length ts) eqn:E; [lia|done]. }
    simpl. unfold transitions. apply lookup_zip_with_Some.
    exists b, a. split; [|split].
    - destruct (Z.eqb_spec b a); [by subst|done].
    - by rewrite lookup_drop.
    - rewrite lookup_take_lt by lia. done. }
  refine (for_each_invariant (λ d, d !! S k = Some 1) _ _ _ _ _ _ _ Hk Hrun).
  clear. intros day_indices s h s' h' _ Hs Hbody.
  apply bind_M_Ok in Hbody as (n_opens & h1 & _ & Hbody).
  refine (for_range_invariant (λ d, d !! S k = Some 1) _ _ _ _ _ _ _ Hs Hbody).
  clear. intros s g s' g' Hs Hbody.
  event_cases Hbody Hfill; [done|].
  eapply fill_door_keeps; [exact Hfill|done].
Qed.

Lemma compute_timeline_Ok self ts g tl g' :
  compute_timeline self ts g = (Ok tl, g') →
  let tf := extract_time_features ts in
  let inside := _generate_inside self tf in
  let sleeping := _generate_sleeping self tf in
  ∃ room1 windows doors g1 g2,
    tl = (inside, sleeping, room1, windows, doors) ∧
    _generate_room1 self tf inside sleeping g = (Ok room1, g1) ∧
    _generate_window_state self tf inside sleeping g1 = (Ok windows, g2) ∧
    _generate_door_state self tf inside sleeping g2 = (Ok doors, g').
Proof.
  unfold compute_timeline. intros Hrun.
  apply bind_M_Ok in Hrun as (room1 & g1 & H1 & Hrun).
  apply bind_M_Ok in Hrun as (windows & g2 & H2 & Hrun).
  apply bind_M_Ok in Hrun as (doors & g3 & H3 & Hrun).
  apply ret_M_Ok in Hrun as [-> ->].
  by exists room1, windows, doors, g1, g2.
Qed.

(** A first call of [generate] on a freshly bound person runs the
    computation on the person's own stream and caches what it returns. *)
Lemma generate_bound_Ok p0 ts tl p' :
  generate (set_timeline p0 ts) = (Ok tl, p') →
  compute_timeline (set_timeline p0 ts) ts (rng p0) = (Ok tl, rng p') ∧
  timestamps p' = Some ts ∧ _timeline_cache p' = Some tl.
Proof.
  unfold generate. simpl.
  destruct (compute_timeline _ ts (rng p0)) as [[tl0|e] g]; intros [= <- <-]; done.
Qed.

Lemma awake_at_confined self tf w :
  let inside := _generate_inside self tf in
  let sleeping := _generate_sleeping self tf in
  window_inv inside sleeping w → confined inside sleeping w.
Proof.
  intros inside sleeping [_ Hw] k v Hk Hv.
  destruct (Hw k v Hk Hv) as (x & Hx & Hx0 & Hs). split; [|done].
  destruct (inside_binary _ _ _ _ Hx) as [->| ->]; done.
Qed.
End Person_facts.


(** ** The end-to-end scenario *)

Lemma minute_fields day i :
  0 <= i < 1440 →
  let t := day * ns_per_day + i * ns_per_minute in
  dt_hour t = i / 60 ∧ dt_minute t = i mod 60 ∧ dt_second t = 0 ∧
  dt_weekday t = (day + 3) mod 7.
Proof.
  intros Hi t. subst t.
  unfold dt_hour, dt_minute, dt_second, dt_weekday,
    ns_per_day, ns_per_hour, ns_per_minute, ns_per_second.
  repeat split; Z.div_mod_to_equations; lia.
Qed.

Lemma single_day_axis_lookup day (i : nat) :
  (i < 1440)%nat →
  single_day_axis day !! i = Some (day * ns_per_day + Z.of_nat i * ns_per_minute).
Proof.
  intros Hi. unfold single_day_axis.
  rewrite list_lookup_fmap, lookup_seqZ_lt by lia. simpl. f_equal; lia.
Qed.

Lemma scenario_inside self day (i : nat) :
  (i < 1440)%nat →
  Person.outside_hours_weekdays self = [(9, 17)] →
  (day + 3) mod 7 < 5 →
  Person._generate_inside self (extract_time_features (single_day_axis day)) !! i
  = Some (if le_hour 9 (inject_Z (Z.of_nat i / 60) + Qmake (Z.of_nat i mod 60) 60 + Qmake 0 3600)
             && hour_lt (inject_Z (Z.of_nat i / 60) + Qmake (Z.of_nat i mod 60) 60 + Qmake 0 3600) 17
          then 0 else 1).
Proof.
  intros Hi Hout Hday.
  unfold Person._generate_inside, extract_time_features. cbn [hours weekday].
  apply lookup_zip_with_Some.
  destruct (minute_fields day (Z.of_nat i)) as (Hh & Hm & Hs & Hw); [lia|].
  eexists _, _. split; [|split].
  2: { rewrite list_lookup_fmap, single_day_axis_lookup by done. reflexivity. }
  2: { rewrite list_lookup_fmap, single_day_axis_lookup by done. reflexivity. }
  unfold Person._is_outside, fractional_hour. rewrite Hout, Hh, Hm, Hs, Hw.
  destruct (Z.ltb_spec ((day + 3) mod 7) 5); [|lia]. cbn [existsb].
  by rewrite orb_false_r.
Qed.

(** C2, as the code has it.  In the single-day scenario every index set in
    the room and window arrays lies where the person is inside and awake,
    whatever the random stream; the door array is not confined in this way:
    on a weekday it is set at index 540, the 9:00 departure, where the
    person is outside. *)
Theorem scenario_room_window_confined
    (p0 : Person.t) (day : Z)
    (inside sleeping room1 windows doors : list Z) (p' : Person.t)
    (Hout : Person.outside_hours_weekdays p0 = [(9, 17)])
    (Hsleep : Person.sleep_hours p0 = (23, 7))
    (Hgen : Person.generate (Person.set_timeline p0 (single_day_axis day))
            = (Ok (inside, sleeping, room1, windows, doors), p')) :
  confined inside sleeping room1 ∧
  confined inside sleeping windows ∧
  (dt_weekday (day * ns_per_day) < 5 →
   doors !! 540%nat = Some 1 ∧ inside !! 540%nat = Some 0).
Proof.
  apply generate_bound_Ok in Hgen as (Hrun & _ & _).
  apply compute_timeline_Ok in Hrun
    as (r & w & d & g1 & g2 & [= -> -> -> -> ->] & Hr & Hw & Hd).
  set (self := Person.set_timeline p0 (single_day_axis day)) in *.
  set (ts := single_day_axis day) in *.
  assert (length (Person._generate_sleeping self (extract_time_features ts))
          = length (Person._generate_inside self (extract_time_features ts))) as Hls.
  { by rewrite sleeping_length, inside_length. }
  split; [|split].
  - apply awake_at_confined. eapply room1_invariant; [| |exact Hr].
    + apply inside_length.
    + exact Hls.
  - apply awake_at_confined.
    eapply window_state_invariant; [| | |exact Hw].
    + reflexivity.
    + apply inside_length.
    + exact Hls.
  - intros Hwd.
    assert ((day + 3) mod 7 < 5) as Hday.
    { destruct (minute_fields day 0) as (_ & _ & _ & Hw0); [lia|].
      rewrite Z.add_0_r in Hw0. by rewrite <- Hw0. }
    pose proof (scenario_inside self day 539 ltac:(lia) Hout Hday) as H539.
    pose proof (scenario_inside self day 540 ltac:(lia) Hout Hday) as H540.
    match type of H539 with _ = Some ?v =>
      let v' := eval vm_compute in v in change v with v' in H539 end.
    match type of H540 with _ = Some ?v =>
      let v' := eval vm_compute in v in change v with v' in H540 end.
    split; [|exact H540].
    eapply door_state_transitions; [| |exact Hd|exact H539|exact H540|done].
    + done.
    + apply inside_length.
Qed.


(** One run of the scenario, evaluated once. *)
Lemma scenario_generate :
  Person.generate scenario_bound = (Ok scenario_timeline, scenario_after).
Proof. vm_compute. reflexivity. Qed.

Lemma scenario_room_window_confined_witness :
  Person.outside_hours_weekdays scenario_person = [(9, 17)] ∧
  Person.sleep_hours scenario_person = (23, 7) ∧
  Person.generate (Person.set_timeline scenario_person (single_day_axis new_year_2025))
  = (Ok scenario_timeline, scenario_after) ∧
  let '(inside, sleeping, room1, windows, doors) := scenario_timeline in
  confined inside sleeping room1 ∧
  confined inside sleeping windows ∧
  (dt_weekday (new_year_2025 * ns_per_day) < 5 →
   doors !! 540%nat = Some 1 ∧ inside !! 540%nat = Some 0).
Proof.
  split; [reflexivity|]. split; [reflexivity|]. split; [exact scenario_generate|].
  exact (scenario_room_window_confined scenario_person new_year_2025
           _ _ _ _ _ scenario_after eq_refl eq_refl scenario_generate).
Defined.

(** C2, as stated, fails for the door array: with the scenario's resident on
    Wednesday 2025-01-01 the door is set at index 540, where the person is
    outside. *)
Lemma scenario_door_not_confined :
  Person.generate (Person.set_timeline scenario_person (single_day_axis new_year_2025))
  = (Ok scenario_timeline, scenario_after) ∧
  let '(inside, sleeping, room1, windows, doors) := scenario_timeline in
  doors !! 540%nat = Some 1 ∧ inside !! 540%nat = Some 0 ∧
  ¬ confined inside sleeping doors.
Proof.
  split; [exact scenario_generate|].
  split; [reflexivity|]. split; [reflexivity|].
  intros H. destruct (H 540%nat 1) as [Hin _]; [reflexivity|done|].
  discriminate Hin.
Qed.

(** ** The sleep interval *)

Lemma le_hour_spec b h : le_hour b h = true ↔ (inject_Z b <= h)%Q.
Proof. apply Qle_bool_iff. Qed.

Lemma hour_lt_spec h b : hour_lt h b = true ↔ (h < inject_Z b)%Q.
Proof.
  unfold hour_lt. rewrite negb_true_iff. split.
  - intros Hb. apply Qnot_le_lt. intros Hle.
    apply Qle_bool_iff in Hle. congruence.
  - intros Hlt. destruct (Qle_bool (inject_Z b) h) eqn:E; [|done].
    apply Qle_bool_iff in E. by apply Qle_not_lt in E.
Qed.

Lemma sleeping_lookup self tf (i : nat) h :
  hours tf !! i = Some h →
  Person._generate_sleeping self tf !! i
  = Some (if (if (Person.sleep_hours self).1 <? (Person.sleep_hours self).2
              then le_hour (Person.sleep_hours self).1 h
                   && hour_lt h (Person.sleep_hours self).2
              else hour_ge h (Person.sleep_hours self).1
                   || hour_lt h (Person.sleep_hours self).2)
          then 1 else 0).
Proof.
  intros Hh. unfold Person._generate_sleeping.
  destruct (Person.sleep_hours self) as [start end_]. cbn [fst snd].
  by rewrite list_lookup_fmap, Hh.
Qed.

(** C3, as the code has it.  At a timestamp with fractional hour [h] the
    sleeping flag is 1 exactly when [start <= h < end] if [start < end], and
    exactly when [h >= start] or [h < end] if [start >= end]; when the two
    bounds coincide the flag is 1 at every timestamp.  The flags are a
    function of the configuration and the axis alone: no random stream
    enters, and [generate] returns exactly these flags whatever its
    stream. *)
Theorem sleeping_follows_interval
    (self : Person.t) (ts : list Timestamp) (i : nat) (h : Q)
    (Hh : hours (extract_time_features ts) !! i = Some h) :
  let start := (Person.sleep_hours self).1 in
  let end_ := (Person.sleep_hours self).2 in
  (∃ v, Person._generate_sleeping self (extract_time_features ts) !! i = Some v ∧
        (v = 0 ∨ v = 1) ∧
        (v = 1 ↔ code_sleeping start end_ h) ∧
        (start = end_ → v = 1)) ∧
  (∀ g ts' cache,
     Person._generate_sleeping (Person.with_state self g ts' cache)
                               (extract_time_features ts)
     = Person._generate_sleeping self (extract_time_features ts)) ∧
  (∀ g inside sleeping room1 windows doors g',
     Person.compute_timeline self ts g
     = (Ok (inside, sleeping, room1, windows, doors), g') →
     sleeping = Person._generate_sleeping self (extract_time_features ts)).
Proof.
  intros start end_. split; [|split].
  - eexists. split; [by apply sleeping_lookup|].
    fold start end_. unfold code_sleeping, hour_ge.
    destruct (Z.ltb_spec start end_) as [Hlt|Hge].
    + destruct (le_hour start h && hour_lt h end_) eqn:E.
      * apply andb_true_iff in E as [E1%le_hour_spec E2%hour_lt_spec].
        repeat split; auto; lia.
      * repeat split; auto; try lia; try done.
        intros [E1%le_hour_spec E2%hour_lt_spec]. rewrite E1, E2 in E. done.
    + destruct (Qle_bool (inject_Z start) h || hour_lt h end_) eqn:E.
      * apply orb_true_iff in E.
        repeat split; auto.
        intros _. destruct E as [E%Qle_bool_iff|E%hour_lt_spec]; auto.
      * apply orb_false_iff in E as [E1 E2].
        assert (¬ ((inject_Z start <= h)%Q ∨ (h < inject_Z end_)%Q)) as Hno.
        { intros [H%Qle_bool_iff|H%hour_lt_spec]; congruence. }
        repeat split; auto; try done.
        intros ->. exfalso. apply Hno.
        destruct (Qlt_le_dec h (inject_Z end_)); auto.
  - intros g ts' cache. reflexivity.
  - intros g inside sleeping room1 windows doors g' Hrun.
    apply compute_timeline_Ok in Hrun
      as (r & w & d & g1 & g2 & [= -> -> -> -> ->] & _). reflexivity.
Qed.

Lemma sleeping_follows_interval_witness :
  hours (extract_time_features (hourly_axis new_year_2025)) !! 2%nat
  = Some (inject_Z 2 + Qmake 0 60 + Qmake 0 3600)%Q ∧
  ∃ v, Person._generate_sleeping alice
         (extract_time_features (hourly_axis new_year_2025)) !! 2%nat = Some v ∧
       (v = 0 ∨ v = 1) ∧
       (v = 1 ↔ code_sleeping 23 6 (inject_Z 2 + Qmake 0 60 + Qmake 0 3600)%Q) ∧
       ((23 : Z) = 6 → v = 1).
Proof.
  split; [vm_compute; reflexivity|].
  apply (sleeping_follows_interval alice (hourly_axis new_year_2025) 2%nat).
  vm_compute. reflexivity.
Defined.

(** C3, as stated, fails when the two bounds coincide: with the interval
    (5, 5) the flag is 1 at every hour of the day, among them midnight,
    which the rule for [start <= end] excludes. *)
Lemma sleeping_equal_bounds_all_ones :
  let tf := extract_time_features (hourly_axis new_year_2025) in
  Person.sleep_hours equal_bounds_sleeper = (5, 5) ∧
  Person._generate_sleeping equal_bounds_sleeper tf = replicate 24 1 ∧
  hours tf !! 0%nat = Some (inject_Z 0 + Qmake 0 60 + Qmake 0 3600)%Q ∧
  ¬ spec_sleeping 5 5 (inject_Z 0 + Qmake 0 60 + Qmake 0 3600)%Q.
Proof.
  split; [reflexivity|]. split; [vm_compute; reflexivity|].
  split; [vm_compute; reflexivity|].
  unfold spec_sleeping. simpl. intros [H1 H2]. revert H1. by vm_compute.
Qed.

(** ** Caching *)

Lemma generate_cached self cache :
  Person._timeline_cache self = Some cache →
  Person.generate self = (Ok cache, self).
Proof. unfold Person.generate. by intros ->. Qed.

(** C4.  After [set_timeline] and one [generate] that returned, a second
    [generate] returns the same five arrays and leaves the person, its
    random stream included, exactly as it was; and a person to which no
    timeline was ever bound gets the precondition error from [generate],
    with nothing cached and nothing drawn. *)
Theorem generate_idempotent
    (p0 : Person.t) (ts : list Timestamp) (tl : timeline) (p1 : Person.t)
    (Hgen : Person.generate (Person.set_timeline p0 ts) = (Ok tl, p1)) :
  Person.generate p1 = (Ok tl, p1) ∧
  drawn (Person.rng (Person.generate p1).2) = drawn (Person.rng p1) ∧
  ∀ PCG64 name outside_weekdays outside_weekend sleep
    window_per_day window_duration door_per_day door_duration
    room_per_day room_duration seed entropy,
    let fresh := Person.__init__ PCG64 name outside_weekdays outside_weekend
                   sleep window_per_day window_duration door_per_day
                   door_duration room_per_day room_duration seed entropy in
    Person.generate fresh
    = (Raise (ValueError
         "Timestamps must be set using set_timeline before generating timeline."),
       fresh).
Proof.
  apply generate_bound_Ok in Hgen as (_ & _ & Hcache).
  rewrite (generate_cached p1 tl Hcache). done.
Qed.

Lemma generate_idempotent_witness :
  ∃ tl p1,
    Person.generate (Person.set_timeline alice (hourly_axis new_year_2025))
    = (Ok tl, p1) ∧
    Person.generate p1 = (Ok tl, p1) ∧
    drawn (Person.rng (Person.generate p1).2) = drawn (Person.rng p1).
Proof.
  eexists _, _. split; [vm_compute; reflexivity|].
  refine (let H := generate_idempotent alice (hourly_axis new_year_2025) _ _ _ in
          conj (proj1 H) (proj1 (proj2 H))).
  vm_compute. reflexivity.
Defined.

(** ** Independence of persons *)

Lemma generate_at_other k j st : j ≠ k → (generate_at k st).2 j = st j.
Proof.
  intros Hne. unfold generate_at. destruct (Person.generate (st k)) as [r p].
  cbn [snd]. by apply fn_lookup_insert_ne.
Qed.

Lemma generate_at_self k st :
  generate_at k st = ((Person.generate (st k)).1,
                      <[k := (Person.generate (st k)).2]> st).
Proof. unfold generate_at. by destruct (Person.generate (st k)). Qed.

Lemma generate_each_other ks j st : j ∉ ks → generate_each ks st j = st j.
Proof.
  revert st. induction ks as [|k ks IH]; intros st Hj; [done|].
  apply not_elem_of_cons in Hj as [Hne Hj].
  cbn [generate_each foldl]. fold (generate_each ks (generate_at k st).2).
  rewrite IH by done. by apply generate_at_other.
Qed.

(** The computation reads the configuration, never the name. *)
Lemma compute_timeline_config p q ts g :
  Person.outside_hours_weekdays p = Person.outside_hours_weekdays q →
  Person.outside_hours_weekend p = Person.outside_hours_weekend q →
  Person.sleep_hours p = Person.sleep_hours q →
  Person.window_open_per_day p = Person.window_open_per_day q →
  Person.window_open_duration p = Person.window_open_duration q →
  Person.door_open_per_day p = Person.door_open_per_day q →
  Person.door_open_duration p = Person.door_open_duration q →
  Person.room_per_day p = Person.room_per_day q →
  Person.room_duration p = Person.room_duration q →
  Person.timestamps p = Person.timestamps q →
  Person.compute_timeline p ts g = Person.compute_timeline q ts g.
Proof.
  destruct p, q. simpl. intros. subst. reflexivity.
Qed.

Lemma generate_config p q :
  Person.outside_hours_weekdays p = Person.outside_hours_weekdays q →
  Person.outside_hours_weekend p = Person.outside_hours_weekend q →
  Person.sleep_hours p = Person.sleep_hours q →
  Person.window_open_per_day p = Person.window_open_per_day q →
  Person.window_open_duration p = Person.window_open_duration q →
  Person.door_open_per_day p = Person.door_open_per_day q →
  Person.door_open_duration p = Person.door_open_duration q →
  Person.room_per_day p = Person.room_per_day q →
  Person.room_duration p = Person.room_duration q →
  Person.rng p = Person.rng q →
  Person.timestamps p = Person.timestamps q →
  Person._timeline_cache p = Person._timeline_cache q →
  (Person.generate p).1 = (Person.generate q).1 ∧
  Person._timeline_cache (Person.generate p).2
  = Person._timeline_cache (Person.generate q).2.
Proof.
  intros H1 H2 H3 H4 H5 H6 H7 H8 H9 Hg Hts Hc.
  unfold Person.generate. rewrite Hc, Hts, Hg.
  destruct (Person._timeline_cache q) as [cache|] eqn:Ec;
    [simpl; split; congruence|].
  destruct (Person.timestamps q) as [ts|] eqn:Eq;
    [|simpl; split; congruence].
  rewrite (compute_timeline_config p q ts (Person.rng q)) by congruence.
  by destruct (Person.compute_timeline q ts (Person.rng q)) as [[tl|e] g'].
Qed.

(** C5.  Two persons built with the same configuration and the same integer
    seed and bound to the same axis get equal results from [generate]
    (the same five arrays, or the same exception), whatever other persons
    of the store are generated before, between or after them; afterwards
    both hold the same cache. *)
Theorem same_seed_same_timeline
    (PCG64 : Z → nat → Z) (name_a name_b : string)
    (outside_weekdays outside_weekend : list (Z * Z)) (sleep : Z * Z)
    (window_per_day window_duration door_per_day door_duration
     room_per_day room_duration : Z * Z)
    (seed entropy_a entropy_b : Z) (ts : list Timestamp)
    (st : store) (a b : nat) (before between after : list nat)
    (Hab : a ≠ b)
    (Ha : st a = Person.set_timeline
                   (Person.__init__ PCG64 name_a outside_weekdays outside_weekend
                      sleep window_per_day window_duration door_per_day
                      door_duration room_per_day room_duration
                      (Some seed) entropy_a) ts)
    (Hb : st b = Person.set_timeline
                   (Person.__init__ PCG64 name_b outside_weekdays outside_weekend
                      sleep window_per_day window_duration door_per_day
                      door_duration room_per_day room_duration
                      (Some seed) entropy_b) ts)
    (Hbefore : (a ∉ before) ∧ (b ∉ before))
    (Hbetween : (a ∉ between) ∧ (b ∉ between))
    (Hafter : (a ∉ after) ∧ (b ∉ after)) :
  let st1 := generate_each before st in
  let ra := generate_at a st1 in
  let st2 := generate_each between ra.2 in
  let rb := generate_at b st2 in
  let st3 := generate_each after rb.2 in
  ra.1 = rb.1 ∧
  Person._timeline_cache (st3 a) = Person._timeline_cache (st3 b).
Proof.
  intros st1 ra st2 rb st3.
  destruct Hbefore as [Ha1 Hb1], Hbetween as [Ha2 Hb2], Hafter as [Ha3 Hb3].
  assert (st1 a = st a) as Ea1 by by apply generate_each_other.
  assert (st2 b = st b) as Eb2.
  { unfold st2. rewrite generate_each_other by done.
    unfold ra. rewrite generate_at_other by done.
    by apply generate_each_other. }
  assert (st3 a = (Person.generate (st a)).2) as Ea3.
  { unfold st3. rewrite generate_each_other by done.
    unfold rb. rewrite generate_at_other by done.
    unfold st2. rewrite generate_each_other by done.
    unfold ra. rewrite generate_at_self. cbn [snd].
    by rewrite fn_lookup_insert, Ea1. }
  assert (st3 b = (Person.generate (st b)).2) as Eb3.
  { unfold st3. rewrite generate_each_other by done.
    unfold rb. rewrite generate_at_self. cbn [snd].
    by rewrite fn_lookup_insert, Eb2. }
  assert (ra.1 = (Person.generate (st a)).1) as Era.
  { unfold ra. rewrite generate_at_self. cbn [fst]. by rewrite Ea1. }
  assert (rb.1 = (Person.generate (st b)).1) as Erb.
  { unfold rb. rewrite generate_at_self. cbn [fst]. by rewrite Eb2. }
  rewrite Era, Erb, Ea3, Eb3, Ha, Hb.
  apply generate_config; reflexivity.
Qed.

Lemma same_seed_same_timeline_witness :
  let st1 := generate_each [2; 3]%nat household in
  let ra := generate_at 0 st1 in
  let st2 := generate_each [4; 2]%nat ra.2 in
  let rb := generate_at 1 st2 in
  let st3 := generate_each [5]%nat rb.2 in
  ra.1 = rb.1 ∧
  Person._timeline_cache (st3 0%nat) = Person._timeline_cache (st3 1%nat).
Proof.
  apply (same_seed_same_timeline sample_stream "Alice" "Alice's twin"
           [(8, 17)] [(9, 12); (16, 20)] (23, 6)
           (1, 2) (15, 60) (1, 3) (1, 3) (1, 3) (15, 60) 123 0 1
           (hourly_axis new_year_2025) household 0 1
           [2; 3]%nat [4; 2]%nat [5]%nat);
    try reflexivity; try lia;
    split; rewrite ?not_elem_of_cons; repeat split;
    try apply not_elem_of_nil; lia.
Defined.

(** ** Degenerate ranges *)

Lemma integers_in_range low high g v g' :
  Sampling.integers low high g = (Ok v, g') →
  low <= v < high ∧ drawn g' = S (drawn g).
Proof.
  unfold Sampling.integers. destruct (Z.leb_spec high low); [done|].
  intros [= <- <-]. split; [|done].
  pose proof (Z.mod_pos_bound (bits g (drawn g)) (high - low)). lia.
Qed.


Lemma insert_sorted_elem x y l : y ∈ insert_sorted x l ↔ y = x ∨ y ∈ l.
Proof.
  induction l as [|z l IH]; simpl.
  - rewrite list_elem_of_singleton, elem_of_nil. tauto.
  - destruct (Z.ltb_spec x z); [by rewrite elem_of_cons|].
    destruct (Z.eqb_spec x z) as [->|Hne].
    + rewrite elem_of_cons. tauto.
    + rewrite !elem_of_cons, IH. tauto.
Qed.

Lemma np_unique_elem x l : x ∈ np_unique l ↔ x ∈ l.
Proof.
  unfold np_unique. induction l as [|y l IH]; simpl; [done|].
  rewrite insert_sorted_elem, elem_of_cons, IH. tauto.
Qed.

Lemma np_any_eq_elem l v : v ∈ l → np_any_eq l v = true.
Proof.
  intros Hin. apply existsb_exists. exists v. split.
  - by apply list_elem_of_In.
  - apply Z.eqb_refl.
Qed.




Lemma bind_M_step {A B} (m : M A) (f : A → M B) g a g' :
  m g = (Ok a, g') → (m ≫= f) g = f a g'.
Proof. intros H. unfold mbind, M_bind. by rewrite H. Qed.

Section Degenerate_counts.
Import Person.
Variables (self : Person.t) (ts : list Timestamp).
Hypothesis Hbound : timestamps self = Some ts.
Hypothesis Hne : ts ≠ [].




End Degenerate_counts.





(** ** Reading before generating *)

Lemma obj_or_none_zeros n :
  (λ x, obj_or x PyNone) <$> as_objects (IntArray (zeros n))
  = replicate (Z.to_nat n) PyNone.
Proof. unfold zeros. simpl. by rewrite !fmap_replicate. Qed.

Lemma obj_or_none_nones (n : nat) :
  (λ x, obj_or x PyNone) <$> as_objects (ObjectArray (replicate n PyNone))
  = replicate n PyNone.
Proof. simpl. by rewrite fmap_replicate. Qed.

Lemma aggregate_all_absent (st : store) (state_func : Person.t → option (list Z))
    (persons : list nat) (n : nat) :
  (∀ k, k ∈ persons → state_func (st k) = None) →
  foldl (λ state person,
           state ← state;
           np_logical_or state (IntArray <$> state_func (st person)))
        (Ok (ObjectArray (replicate n PyNone))) persons
  = Ok (ObjectArray (replicate n PyNone)).
Proof.
  induction persons as [|k persons IH]; intros Hall; [done|].
  cbn [foldl]. rewrite (Hall k) by left. cbn [mbind result_bind fmap option_fmap option_map np_logical_or].
  rewrite obj_or_none_nones. apply IH. intros j Hj. apply Hall. by right.
Qed.

Lemma astype_int_nones (n : nat) :
  (0 < n)%nat →
  astype_int (ObjectArray (replicate n PyNone))
  = Raise (TypeError "int() argument must be a string, a bytes-like object or a real number, not 'NoneType'").
Proof. destruct n; [lia|]. reflexivity. Qed.

Lemma aggregate_absent_raises (self : Apartment.t) (st : store) state_func :
  Apartment.timestamps self ≠ [] →
  Apartment.persons self ≠ [] →
  (∀ k, k ∈ Apartment.persons self → state_func (st k) = None) →
  Apartment._aggregate_person_state self st state_func
  = Raise (TypeError "int() argument must be a string, a bytes-like object or a real number, not 'NoneType'").
Proof.
  intros Hts Hps Hall. unfold Apartment._aggregate_person_state.
  destruct (Apartment.persons self) as [|k persons]; [done|].
  cbn [foldl]. rewrite (Hall k) by left.
  cbn [mbind result_bind fmap option_fmap option_map np_logical_or].
  rewrite obj_or_none_zeros, aggregate_all_absent.
  - cbn [mbind result_bind]. apply astype_int_nones.
    unfold len. destruct (Apartment.timestamps self); [done|]. simpl. lia.
  - intros j Hj. apply Hall. by right.
Qed.

(** C8, as the code has it.  Before [generate] the three accessors of a
    person return nothing, and so does [get_motion] of an apartment; none of
    them raises.  [get_window] and [get_door] are different: over a
    non-empty axis, when none of the apartment's persons has generated,
    they raise a type error at the final integer conversion. *)
Theorem accessors_before_generate
    (self : Apartment.t) (st : store)
    (Hts : Apartment.timestamps self ≠ [])
    (Hps : Apartment.persons self ≠ [])
    (Hung : ∀ k, k ∈ Apartment.persons self →
                 Person._timeline_cache (st k) = None) :
  (∀ p0 ts,
     Person.get_room1_state (Person.set_timeline p0 ts) = None ∧
     Person.get_window_state (Person.set_timeline p0 ts) = None ∧
     Person.get_door_state (Person.set_timeline p0 ts) = None) ∧
  (∀ MT19937 ts persons prob lo hi seed global,
     Apartment.get_motion
       (Apartment.__init__ MT19937 ts persons prob lo hi seed global).1 = None) ∧
  Apartment.get_window self st
  = Raise (TypeError "int() argument must be a string, a bytes-like object or a real number, not 'NoneType'") ∧
  Apartment.get_door self st
  = Raise (TypeError "int() argument must be a string, a bytes-like object or a real number, not 'NoneType'").
Proof.
  split; [done|]. split; [done|]. split.
  - apply aggregate_absent_raises; [done..|].
    intros k Hk. unfold Person.get_window_state. by rewrite (Hung k Hk).
  - apply aggregate_absent_raises; [done..|].
    intros k Hk. unfold Person.get_door_state. by rewrite (Hung k Hk).
Qed.

Lemma accessors_before_generate_witness :
  Apartment.timestamps flat ≠ [] ∧
  Apartment.persons flat ≠ [] ∧
  (∀ k, k ∈ Apartment.persons flat → Person._timeline_cache (household k) = None) ∧
  Apartment.get_motion flat = None ∧
  Apartment.get_window flat household
  = Raise (TypeError "int() argument must be a string, a bytes-like object or a real number, not 'NoneType'") ∧
  Apartment.get_door flat household
  = Raise (TypeError "int() argument must be a string, a bytes-like object or a real number, not 'NoneType'").
Proof.
  assert (Apartment.timestamps flat ≠ []) as Hts by (vm_compute; discriminate).
  assert (Apartment.persons flat ≠ []) as Hps by (vm_compute; discriminate).
  assert (∀ k, k ∈ Apartment.persons flat →
               Person._timeline_cache (household k) = None) as Hung by done.
  split; [exact Hts|]. split; [exact Hps|]. split; [exact Hung|].
  split; [reflexivity|].
  exact (proj2 (proj2 (accessors_before_generate flat household Hts Hps Hung))).
Defined.

(** C8, as stated, fails for the apartment's window and door accessors: with
    residents that have not generated, [get_window] raises. *)
Lemma get_window_before_generate_raises :
  Person.get_window_state (household 0%nat) = None ∧
  Person.get_window_state (household 1%nat) = None ∧
  Apartment.get_window flat household
  = Raise (TypeError "int() argument must be a string, a bytes-like object or a real number, not 'NoneType'") ∧
  Apartment.get_door flat household
  = Raise (TypeError "int() argument must be a string, a bytes-like object or a real number, not 'NoneType'").
Proof. repeat split; vm_compute; reflexivity. Qed.


(** ** Motion needs generated persons *)

Section Motion_facts.
Import Apartment.

Lemma motion_loop_absent fuel n prob lo hi pm bursts g :
  0 < n →
  motion_loop (S fuel) n None prob lo hi 0 pm bursts g
  = Some (Raise (TypeError "'NoneType' object is not subscriptable"), g).
Proof.
  intros Hn. cbn [motion_loop]. destruct (Z.ltb_spec 0 n); [done|lia].
Qed.

(** With durations of at least one index every pass ends within [n]
    iterations. *)
Lemma motion_loop_terminates n room1_state prob lo hi :
  1 <= lo →
  ∀ fuel i pm bursts g,
    n - i <= Z.of_nat fuel →
    is_Some (motion_loop fuel n room1_state prob lo hi i pm bursts g).
Proof.
  intros Hlo. induction fuel as [|fuel IH]; intros i pm bursts g Hfuel.
  - cbn [motion_loop]. destruct (Z.ltb_spec i n); [lia|done].
  - cbn [motion_loop]. destruct (Z.ltb_spec i n) as [Hin|_]; [|done].
    destruct (subscript room1_state i) as [v|e]; [|done].
    destruct (0 <? v); [|apply IH; lia].
    destruct (Sampling.rand g) as [u g1].
    destruct (rand_lt u prob); [|apply IH; lia].
    destruct (Sampling.integers lo (hi + 1) g1) as [[d|e] g2] eqn:Ed; [|done].
    apply integers_in_range in Ed as [Hd _]. apply IH. lia.
Qed.

Lemma simulate_terminates fuel self person g :
  1 <= min_duration self →
  (length (timestamps self) ≤ fuel)%nat →
  is_Some (_simulate_person_motion fuel self person g).
Proof.
  intros Hlo Hfuel. unfold _simulate_person_motion.
  destruct (motion_loop_terminates (len (timestamps self))
              (Person.get_room1_state person) (prob_movement self)
              (min_duration self) (max_duration self) Hlo fuel 0
              (zeros (len (timestamps self))) [] g) as [[[[pm bs]|e] g'] ->].
  - unfold len. lia.
  - done.
  - done.
Qed.

Lemma motion_of_persons_terminates fuel self (st : store) :
  1 <= min_duration self →
  (length (timestamps self) ≤ fuel)%nat →
  ∀ ps motion g,
    is_Some (motion_of_persons fuel self st ps motion g).
Proof.
  intros Hlo Hfuel. induction ps as [|k ps IH]; intros motion g.
  - done.
  - cbn [motion_of_persons].
    destruct (simulate_terminates fuel self (st k) g Hlo Hfuel)
      as [[[pm|e] g'] ->]; [|done].
    destruct (np_logical_or motion (Some (IntArray pm))); [apply IH|done].
Qed.

Lemma simulate_absent_not_ok fuel self person g pm g' :
  timestamps self ≠ [] →
  Person.get_room1_state person = None →
  _simulate_person_motion fuel self person g ≠ Some (Ok pm, g').
Proof.
  intros Hts Hung. unfold _simulate_person_motion. rewrite Hung.
  destruct fuel as [|fuel].
  - cbn [motion_loop]. destruct (Z.ltb_spec 0 (len (timestamps self))); [done|].
    unfold len in *. destruct (timestamps self); [done|]. simpl in *. lia.
  - rewrite motion_loop_absent; [done|].
    unfold len. destruct (timestamps self); [done|]. simpl. lia.
Qed.

Lemma motion_of_persons_absent_not_ok fuel self (st : store) k :
  timestamps self ≠ [] →
  Person.get_room1_state (st k) = None →
  ∀ ps motion g r g',
    k ∈ ps →
    motion_of_persons fuel self st ps motion g ≠ Some (Ok r, g').
Proof.
  intros Hts Hung. induction ps as [|j ps IH];
    intros motion g r g' Hk.
  - by apply elem_of_nil in Hk.
  - cbn [motion_of_persons].
    destruct (_simulate_person_motion fuel self (st j) g)
      as [[[pm|e] g1]|] eqn:Esim; [|done|done].
    apply elem_of_cons in Hk as [->|Hk].
    + by apply simulate_absent_not_ok in Esim.
    + destruct (np_logical_or motion (Some (IntArray pm))); [|done].
      by apply IH.
Qed.
End Motion_facts.

(** C10.  Over a non-empty axis, the motion pass of a person that has not
    generated raises at its first subscript, whatever the process-wide
    generator holds; [Apartment.generate] therefore never completes when
    such a person is bound, and (durations being at least one index, so
    that every pass ends) it raises. *)
Theorem motion_requires_generated_persons
    (self : Apartment.t) (st : store) (k : nat)
    (Hts : Apartment.timestamps self ≠ [])
    (Hk : k ∈ Apartment.persons self)
    (Hung : Person.get_room1_state (st k) = None) :
  (∀ fuel g,
     Apartment._simulate_person_motion (S fuel) self (st k) g
     = Some (Raise (TypeError "'NoneType' object is not subscriptable"), g)) ∧
  (∀ fuel g r g', Apartment.generate fuel self st g ≠ Some (Ok r, g')) ∧
  (1 <= Apartment.min_duration self →
   ∀ fuel g, (length (Apartment.timestamps self) ≤ fuel)%nat →
     ∃ e g', Apartment.generate fuel self st g = Some (Raise e, g')).
Proof.
  assert (∀ fuel g r g', Apartment.generate fuel self st g ≠ Some (Ok r, g'))
    as Hnot.
  { intros fuel g r g'. unfold Apartment.generate, Apartment._generate_motion.
    destruct (Apartment.motion_of_persons fuel self st (Apartment.persons self)
                (IntArray (zeros (len (Apartment.timestamps self)))) g)
      as [[[m|e] g1]|] eqn:E; [|done|done].
    by apply motion_of_persons_absent_not_ok with (k := k) in E. }
  split; [|split].
  - intros fuel g. unfold Apartment._simulate_person_motion. rewrite Hung.
    rewrite motion_loop_absent; [done|].
    unfold len. destruct (Apartment.timestamps self); [done|]. simpl. lia.
  - exact Hnot.
  - intros Hlo fuel g Hfuel.
    destruct (Apartment.generate fuel self st g) as [[[r|e] g']|] eqn:E.
    + by apply Hnot in E.
    + by exists e, g'.
    + exfalso. revert E. unfold Apartment.generate, Apartment._generate_motion.
      destruct (motion_of_persons_terminates fuel self st Hlo Hfuel
                  (Apartment.persons self)
                  (IntArray (zeros (len (Apartment.timestamps self)))) g)
        as [[[m|e] g1] ->]; [|done].
      by destruct (astype_int m).
Qed.

Lemma motion_requires_generated_persons_witness :
  Apartment.timestamps flat ≠ [] ∧
  1%nat ∈ Apartment.persons flat ∧
  Person.get_room1_state (household 1%nat) = None ∧
  1 <= Apartment.min_duration flat ∧
  ∃ e g', Apartment.generate 24 flat household (mkGenerator (sample_stream 0) 0)
          = Some (Raise e, g').
Proof.
  assert (Apartment.timestamps flat ≠ []) as Hts by (vm_compute; discriminate).
  assert (1%nat ∈ Apartment.persons flat) as Hk by (right; left).
  assert (1 <= Apartment.min_duration flat) as Hlo by (vm_compute; intros [=]).
  split; [exact Hts|]. split; [exact Hk|]. split; [reflexivity|].
  split; [exact Hlo|].
  apply (proj2 (proj2 (motion_requires_generated_persons flat household 1%nat
                         Hts Hk eq_refl)) Hlo).
  vm_compute. lia.
Defined.


(** ** Aggregation over persons *)

Lemma any_truthy_lookup n arrays (i : nat) :
  any_truthy n arrays !! i
  = if decide (i < n)%nat
    then Some (existsb (λ a : list Z, truthy (a !!! i)) arrays)
    else None.
Proof.
  unfold any_truthy. rewrite list_lookup_fmap.
  destruct (decide (i < n)%nat) as [Hlt|Hge].
  - by rewrite lookup_seq_lt.
  - by rewrite lookup_seq_ge by lia.
Qed.

Lemma any_truthy_length n arrays : length (any_truthy n arrays) = n.
Proof. unfold any_truthy. by rewrite length_fmap, length_seq. Qed.

Lemma elementwise_or_any_truthy n arrays :
  elementwise_or n arrays
  = (λ b : bool, if b then 1 else 0) <$> any_truthy n arrays.
Proof. unfold elementwise_or, any_truthy. by rewrite <- list_fmap_compose. Qed.

Lemma any_truthy_snoc n arrays (w : list Z) :
  length w = n →
  zip_with (λ (b : bool) v, b || truthy v) (any_truthy n arrays) w
  = any_truthy n (arrays ++ [w]).
Proof.
  intros Hw. apply list_eq. intros i.
  rewrite lookup_zip_with, !any_truthy_lookup.
  destruct (decide (i < n)%nat) as [Hlt|Hge]; [|done]. cbn [mbind option_bind].
  destruct (lookup_lt_is_Some_2 w i) as [v Hv]; [lia|].
  rewrite Hv. cbn [mbind option_bind]. f_equal.
  rewrite existsb_app. cbn [existsb]. rewrite orb_false_r.
  by rewrite (list_lookup_total_correct w i v Hv).
Qed.

Lemma any_truthy_Permutation n (ws ws' : list (list Z)) :
  ws ≡ₚ ws' → any_truthy n ws = any_truthy n ws'.
Proof.
  intros Hp. unfold any_truthy. apply list_fmap_ext. intros _ k _.
  induction Hp as [|a l l' _ IH|a b l|l l' l'' _ IH1 _ IH2]; cbn [existsb].
  - done.
  - by rewrite IH.
  - by rewrite !orb_assoc, (orb_comm (truthy (b !!! k))).
  - by rewrite IH1.
Qed.

Lemma truth_of_bools (l : list bool) : obj_truthy <$> (PyBool <$> l) = l.
Proof. induction l as [|b l IH]; [done|]. cbn. by rewrite IH. Qed.

Lemma merged_zeros (n : nat) : merged n [] (IntArray (zeros (Z.of_nat n))).
Proof.
  unfold zeros. rewrite Nat2Z.id. split; [done|]. split.
  - cbn [as_objects]. rewrite <- list_fmap_compose, fmap_replicate.
    unfold any_truthy. cbn [existsb].
    rewrite (const_fmap _ (seq 0 n) false) by done. by rewrite length_seq.
  - cbn [astype_int]. unfold elementwise_or. cbn [existsb].
    rewrite (const_fmap _ (seq 0 n) 0) by done. by rewrite length_seq.
Qed.

Lemma merged_step n acc state (w : list Z) :
  merged n acc state → length w = n →
  ∃ state', np_logical_or state (Some (IntArray w)) = Ok state' ∧
            merged n (acc ++ [w]) state'.
Proof.
  intros (Hobj & Htruth & _) Hw. unfold np_logical_or. rewrite Hobj.
  cbn [is_object_array orb as_objects]. unfold broadcast.
  assert (length (as_objects state) = n) as Hlen.
  { rewrite <- (length_fmap obj_truthy), Htruth. apply any_truthy_length. }
  rewrite bool_decide_eq_true_2 by (rewrite length_fmap; lia).
  eexists. split; [reflexivity|].
  assert (zip_with (λ x y, obj_truthy x || obj_truthy y)
            (as_objects state) (PyInt <$> w)
          = any_truthy n (acc ++ [w])) as Hzip.
  { rewrite zip_with_fmap_r. cbn [obj_truthy].
    rewrite <- (zip_with_fmap_l (λ (b : bool) v, b || truthy v) obj_truthy).
    rewrite Htruth. by apply any_truthy_snoc. }
  split; [done|]. split.
  - cbn [as_objects]. by rewrite truth_of_bools.
  - cbn [astype_int]. by rewrite Hzip, elementwise_or_any_truthy.
Qed.

Lemma aggregate_merged (st : store) (state_func : Person.t → option (list Z))
    (n : nat) (ps : list nat) :
  (∀ k, k ∈ ps → ∃ w, state_func (st k) = Some w ∧ length w = n) →
  ∀ acc state, merged n acc state →
    ∃ state',
      foldl (λ state person,
               state ← state;
               np_logical_or state (IntArray <$> state_func (st person)))
            (Ok state) ps = Ok state' ∧
      merged n (acc ++ ((λ k, default [] (state_func (st k))) <$> ps)) state'.
Proof.
  induction ps as [|k ps IH]; intros Hall acc state Hm.
  - exists state. by rewrite app_nil_r.
  - destruct (Hall k) as (w & Hw & Hlen); [by left|].
    destruct (merged_step n acc state w Hm Hlen) as (state1 & Hstep & Hm1).
    cbn [foldl mbind result_bind]. rewrite Hw. cbn [fmap option_fmap option_map].
    rewrite Hstep.
    destruct (IH (λ j Hj, Hall j (proj2 (elem_of_cons ps j k) (or_intror Hj)))
                 _ _ Hm1) as (state' & Hfold & Hm').
    exists state'. split; [exact Hfold|].
    cbn [fmap list_fmap]. rewrite Hw. cbn [default].
    by rewrite <- app_assoc in Hm'.
Qed.

Lemma aggregate_elementwise_or (self : Apartment.t) (st : store) state_func :
  (∀ k, k ∈ Apartment.persons self →
        ∃ w, state_func (st k) = Some w ∧
             length w = length (Apartment.timestamps self)) →
  Apartment._aggregate_person_state self st state_func
  = Ok (elementwise_or (length (Apartment.timestamps self))
          ((λ k, default [] (state_func (st k))) <$> Apartment.persons self)).
Proof.
  intros Hall. unfold Apartment._aggregate_person_state.
  destruct (aggregate_merged st state_func _ _ Hall [] _
              (merged_zeros (length (Apartment.timestamps self))))
    as (state' & Hfold & (_ & _ & Hint)).
  unfold len. rewrite Hfold. cbn [mbind result_bind]. exact Hint.
Qed.

Lemma assign_from_1_length a v d :
  Person.assign_from_1 a v = Ok d → length d = length a.
Proof.
  unfold Person.assign_from_1. case_bool_decide as Hv.
  - intros [= <-]. rewrite length_app, Hv, length_take, length_drop. lia.
  - destruct v as [|x [|y v]]; [done| |done].
    intros [= <-]. rewrite length_app, length_replicate, length_take, length_drop.
    lia.
Qed.

Lemma fill_door_length n idx :
  ∀ d d', Person.fill_door n idx d = Ok d' → length d' = length d.
Proof.
  induction idx as [|i idx IH]; intros d d' Hrun; simpl in Hrun.
  - by injection Hrun as <-.
  - destruct (n <=? i); [by injection Hrun as <-|].
    apply bind_result_Ok in Hrun as (d1 & Hset & Hrun).
    rewrite (IH _ _ Hrun). by apply setitem_length in Hset.
Qed.

Lemma door_state_length self ts inside sleeping g d g' :
  Person.timestamps self = Some ts →
  Person._generate_door_state self (extract_time_features ts) inside sleeping g
    = (Ok d, g') →
  length d = length ts.
Proof.
  intros Hts Hrun. unfold Person._generate_door_state in Hrun.
  apply bind_M_Ok in Hrun as (n & g1 & Hn & Hrun).
  apply lift_Ok in Hn as [Hn ->]. unfold Person.len_timestamps in Hn.
  rewrite Hts in Hn. injection Hn as <-.
  apply bind_M_Ok in Hrun as (d0 & g1 & Hd0 & Hrun).
  apply lift_Ok in Hd0 as [Hd0 ->].
  apply assign_from_1_length in Hd0. rewrite zeros_length in Hd0.
  unfold len in Hd0. rewrite Nat2Z.id in Hd0.
  refine (for_each_invariant (λ d, length d = length ts) _ _ _ _ _ _ _ Hd0 Hrun).
  clear. intros day_indices s h s' h' _ Hs Hbody.
  apply bind_M_Ok in Hbody as (n_opens & h1 & _ & Hbody).
  refine (for_range_invariant (λ d, length d = length ts) _ _ _ _ _ _ _ Hs Hbody).
  clear. intros s g s' g' Hs Hbody.
  event_cases Hbody Hfill; [done|].
  apply fill_door_length in Hfill. lia.
Qed.

(** A person that generated on an axis holds window and door arrays of that
    axis' length. *)
Lemma generated_lengths p0 ts tl p' :
  Person.generate (Person.set_timeline p0 ts) = (Ok tl, p') →
  (∃ w, Person.get_window_state p' = Some w ∧ length w = length ts) ∧
  (∃ d, Person.get_door_state p' = Some d ∧ length d = length ts).
Proof.
  intros Hgen. apply generate_bound_Ok in Hgen as (Hrun & _ & Hcache).
  apply compute_timeline_Ok in Hrun
    as (r & w & d & g1 & g2 & -> & _ & Hw & Hd).
  unfold Person.get_window_state, Person.get_door_state. rewrite Hcache.
  split.
  - exists w. split; [done|].
    apply window_state_invariant with (ts := ts) in Hw as [Hlen _].
    + by rewrite Hlen, inside_length.
    + done.
    + apply inside_length.
    + by rewrite sleeping_length, inside_length.
  - exists d. split; [done|]. by apply door_state_length in Hd.
Qed.

(** C6.  When every person of the apartment has generated on the
    apartment's axis, [get_window] and [get_door] return the elementwise
    logical OR of the persons' window and door arrays; listing the persons
    in another order changes neither, and with no persons both return the
    all-zero array of the axis' length. *)
Theorem aggregate_is_elementwise_or
    (self : Apartment.t) (st : store)
    (Hgen : ∀ k, k ∈ Apartment.persons self →
              ∃ p0 tl, Person.generate
                         (Person.set_timeline p0 (Apartment.timestamps self))
                       = (Ok tl, st k)) :
  let n := length (Apartment.timestamps self) in
  Apartment.get_window self st
  = Ok (elementwise_or n (window_arrays st (Apartment.persons self))) ∧
  Apartment.get_door self st
  = Ok (elementwise_or n (door_arrays st (Apartment.persons self))) ∧
  (∀ ps, ps ≡ₚ Apartment.persons self →
         Apartment.get_window (with_persons self ps) st
         = Apartment.get_window self st ∧
         Apartment.get_door (with_persons self ps) st
         = Apartment.get_door self st) ∧
  Apartment.get_window (with_persons self []) st = Ok (zeros (Z.of_nat n)) ∧
  Apartment.get_door (with_persons self []) st = Ok (zeros (Z.of_nat n)).
Proof.
  intros n.
  assert (∀ ps, (∀ k, k ∈ ps → k ∈ Apartment.persons self) →
            Apartment.get_window (with_persons self ps) st
            = Ok (elementwise_or n (window_arrays st ps)) ∧
            Apartment.get_door (with_persons self ps) st
            = Ok (elementwise_or n (door_arrays st ps))) as Hboth.
  { intros ps Hps. split.
    - apply (aggregate_elementwise_or (with_persons self ps) st).
      intros k Hk. destruct (Hgen k (Hps k Hk)) as (p0 & tl & Hk').
      by apply generated_lengths in Hk' as [Hw _].
    - apply (aggregate_elementwise_or (with_persons self ps) st).
      intros k Hk. destruct (Hgen k (Hps k Hk)) as (p0 & tl & Hk').
      by apply generated_lengths in Hk' as [_ Hd]. }
  assert (Apartment.get_window self st
          = Ok (elementwise_or n (window_arrays st (Apartment.persons self))) ∧
          Apartment.get_door self st
          = Ok (elementwise_or n (door_arrays st (Apartment.persons self))))
    as [Hw Hd].
  { destruct (Hboth (Apartment.persons self)) as [Hw Hd]; [done|].
    by destruct self. }
  split; [exact Hw|]. split; [exact Hd|]. split; [|done].
  intros ps Hperm. rewrite Hw, Hd.
  destruct (Hboth ps) as [-> ->].
  { intros k Hk. by rewrite <- Hperm. }
  rewrite !elementwise_or_any_truthy. unfold window_arrays, door_arrays.
  split; do 2 f_equal; apply any_truthy_Permutation; by apply fmap_Permutation.
Qed.

Lemma aggregate_is_elementwise_or_witness :
  (∀ k, k ∈ Apartment.persons flat →
     ∃ p0 tl, Person.generate
                (Person.set_timeline p0 (Apartment.timestamps flat))
              = (Ok tl, settled k)) ∧
  Apartment.get_window flat settled
  = Ok (elementwise_or 24 (window_arrays settled [0; 1]%nat)) ∧
  Apartment.get_door flat settled
  = Ok (elementwise_or 24 (door_arrays settled [0; 1]%nat)).
Proof.
  assert (∀ k, k ∈ Apartment.persons flat →
            ∃ p0 tl, Person.generate
                       (Person.set_timeline p0 (Apartment.timestamps flat))
                     = (Ok tl, settled k)) as Hgen.
  { intros k Hk. exists (household k).
    apply elem_of_cons in Hk as [->|Hk];
      [|apply list_elem_of_singleton in Hk as ->];
      eexists; vm_compute; reflexivity. }
  split; [exact Hgen|].
  pose proof (aggregate_is_elementwise_or flat settled Hgen) as (Hw & Hd & _).
  split; [exact Hw|exact Hd].
Defined.

(** ** Motion bursts *)

Lemma slice_assign_length {A} (a : list A) i e v :
  0 <= i <= e → e <= len a → length (slice_assign a i e v) = length a.
Proof.
  intros Hie He. unfold slice_assign, slice_bound, len in *.
  destruct (Z.ltb_spec i 0); [lia|]. destruct (Z.ltb_spec e 0); [lia|].
  rewrite !Z.min_l by lia.
  destruct (Nat.ltb_spec (Z.to_nat i) (Z.to_nat e)); [|done].
  rewrite !length_app, length_take, length_replicate, length_drop. lia.
Qed.

Lemma slice_assign_lookup {A} (a : list A) i e v (k : nat) :
  0 <= i <= e → e <= len a →
  slice_assign a i e v !! k
  = if decide (i <= Z.of_nat k < e) then Some v else a !! k.
Proof.
  intros Hie He. unfold slice_assign, slice_bound, len in *.
  destruct (Z.ltb_spec i 0); [lia|]. destruct (Z.ltb_spec e 0); [lia|].
  rewrite !Z.min_l by lia.
  destruct (Nat.ltb_spec (Z.to_nat i) (Z.to_nat e)) as [Hlt|Hge].
  - destruct (decide (i <= Z.of_nat k < e)) as [Hin|Hout].
    + rewrite lookup_app_r by (rewrite length_take; lia).
      rewrite lookup_app_l by (rewrite length_take, length_replicate; lia).
      apply lookup_replicate_2. rewrite length_take. lia.
    + destruct (decide (k < Z.to_nat i)%nat) as [Hk|Hk].
      * rewrite lookup_app_l by (rewrite length_take; lia).
        by rewrite lookup_take_lt.
      * rewrite lookup_app_r by (rewrite length_take; lia).
        rewrite lookup_app_r by (rewrite length_take, length_replicate; lia).
        rewrite lookup_drop, length_take, length_replicate. f_equal. lia.
  - destruct (decide (i <= Z.of_nat k < e)); [lia|done].
Qed.

Lemma in_burst_snoc bursts s e (k : nat) :
  in_burst (bursts ++ [(s, e)]) k ↔ in_burst bursts k ∨ s <= Z.of_nat k < e.
Proof.
  unfold in_burst. split.
  - intros (s' & e' & Hin & Hk). apply elem_of_app in Hin as [Hin|Hin].
    + left. by exists s', e'.
    + apply list_elem_of_singleton in Hin as [= -> ->]. by right.
  - intros [(s' & e' & Hin & Hk)|Hk].
    + exists s', e'. split; [|done]. apply elem_of_app. by left.
    + exists s, e. split; [|done]. apply elem_of_app. right. by left.
Qed.

Lemma motion_inv_burst n room1_state hi i pm bursts v d :
  motion_inv n room1_state hi i pm bursts →
  i < n → Apartment.subscript room1_state i = Ok v → 0 < v →
  0 <= d <= hi →
  motion_inv n room1_state hi (Z.min (i + d) n)
    (slice_assign pm i (Z.min (i + d) n) 1)
    (bursts ++ [(i, Z.min (i + d) n)]).
Proof.
  intros (Hi & Hlen & Hbursts & Hdisj & Hmarks) Hin Hsub Hv Hd.
  set (e := Z.min (i + d) n). assert (i <= e <= n) as He by (subst e; lia).
  split; [lia|]. split; [|split; [|split]].
  - unfold len in *. rewrite slice_assign_length; unfold len; lia.
  - intros b Hb. apply elem_of_app in Hb as [Hb|Hb].
    + destruct (Hbursts b Hb). split; [done|lia].
    + apply list_elem_of_singleton in Hb as ->. split; [|simpl; lia].
      unfold burst_ok. cbn [fst snd]. repeat split; try lia.
      destruct room1_state as [room1|]; [|done]. cbn [Apartment.subscript] in Hsub.
      apply getitem_nonneg in Hsub; [|lia]. by exists room1, v.
  - intros j1 j2 s1 e1 s2 e2 Hj H1 H2.
    destruct (decide (j2 < length bursts)%nat) as [Hj2|Hj2].
    + rewrite lookup_app_l in H1, H2 by lia.
      exact (Hdisj j1 j2 s1 e1 s2 e2 Hj H1 H2).
    + rewrite lookup_app_r in H2 by lia.
      destruct (j2 - length bursts)%nat eqn:Ej; [|by destruct n0].
      injection H2 as <- <-.
      rewrite lookup_app_l in H1 by lia.
      destruct (Hbursts (s1, e1)) as [_ Hle]; [by eapply list_elem_of_lookup_2|].
      done.
  - intros k w Hk. rewrite slice_assign_lookup in Hk by lia.
    rewrite in_burst_snoc. fold e.
    destruct (decide (i <= Z.of_nat k < e)) as [Hke|Hke].
    + injection Hk as <-. left. auto.
    + destruct (Hmarks k w Hk) as [[-> Hb]|[-> Hb]]; [left|right]; tauto.
Qed.

Lemma motion_inv_advance n room1_state hi i pm bursts :
  motion_inv n room1_state hi i pm bursts → i < n →
  motion_inv n room1_state hi (i + 1) pm bursts.
Proof.
  intros (Hi & Hlen & Hbursts & Hdisj & Hmarks) Hin.
  split; [lia|]. split; [done|]. split; [|done].
  intros b Hb. destruct (Hbursts b Hb). split; [done|lia].
Qed.

Lemma motion_loop_invariant n room1_state prob lo hi :
  0 <= lo →
  ∀ fuel i pm bursts g pm' bursts' g',
    motion_inv n room1_state hi i pm bursts →
    Apartment.motion_loop fuel n room1_state prob lo hi i pm bursts g
    = Some (Ok (pm', bursts'), g') →
    motion_inv n room1_state hi n pm' bursts'.
Proof.
  intros Hlo. induction fuel as [|fuel IH];
    intros i pm bursts g pm' bursts' g' Hinv Hrun; cbn [Apartment.motion_loop] in Hrun.
  - destruct (Z.ltb_spec i n) as [Hin|Hin]; [done|].
    injection Hrun as <- <- <-.
    assert (i = n) as -> by (destruct Hinv as [? _]; lia). done.
  - destruct (Z.ltb_spec i n) as [Hin|Hin].
    2: { injection Hrun as <- <- <-.
         assert (i = n) as -> by (destruct Hinv as [? _]; lia). done. }
    destruct (Apartment.subscript room1_state i) as [v|e] eqn:Hsub; [|done].
    destruct (Z.ltb_spec 0 v) as [Hv|Hv].
    2: { eapply IH; [|exact Hrun]. by apply motion_inv_advance. }
    destruct (Sampling.rand g) as [u g1].
    destruct (Apartment.rand_lt u prob).
    2: { eapply IH; [|exact Hrun]. by apply motion_inv_advance. }
    destruct (Sampling.integers lo (hi + 1) g1) as [[d|e] g2] eqn:Ed; [|done].
    apply integers_in_range in Ed as [Hd _].
    eapply IH; [|exact Hrun]. eapply motion_inv_burst; eauto. lia.
Qed.

Lemma motion_inv_start (n : nat) room1_state hi :
  motion_inv (Z.of_nat n) room1_state hi 0 (zeros (Z.of_nat n)) [].
Proof.
  split; [lia|]. split; [|split; [|split]].
  - unfold len. rewrite zeros_length. lia.
  - intros b Hb. by apply elem_of_nil in Hb.
  - intros j1 j2 s1 e1 s2 e2 _ H1. done.
  - intros k v Hk. apply zeros_lookup in Hk as ->. right. split; [done|].
    intros (s & e & Hin & _). by apply elem_of_nil in Hin.
Qed.

(** C7, as the code has it.  Provided the configured minimum duration is
    not negative, in every motion pass that completes each burst is a span
    [[s, e)] of the axis with at most [max_duration] indices that starts
    where the person's [room1] is set, a burst recorded later starts at or
    after the end of every earlier one, and the pass returns the array that
    is 1 exactly on the bursts. *)
Theorem bursts_bounded_disjoint
    (self : Apartment.t) (person : Person.t) (fuel : nat) (g : Generator)
    (pm : list Z) (bursts : list (Z * Z)) (g' : Generator)
    (Hlo : 0 <= Apartment.min_duration self)
    (Hloop : Apartment.motion_loop fuel (len (Apartment.timestamps self))
               (Person.get_room1_state person) (Apartment.prob_movement self)
               (Apartment.min_duration self) (Apartment.max_duration self)
               0 (zeros (len (Apartment.timestamps self))) [] g
             = Some (Ok (pm, bursts), g')) :
  Apartment._simulate_person_motion fuel self person g = Some (Ok pm, g') ∧
  (∀ b, b ∈ bursts →
     burst_ok (len (Apartment.timestamps self)) (Person.get_room1_state person)
              (Apartment.max_duration self) b) ∧
  pairwise_disjoint bursts ∧
  (∀ (k : nat) v, pm !! k = Some v →
     (v = 1 ↔ in_burst bursts k) ∧ (v = 0 ∨ v = 1)).
Proof.
  split.
  { unfold Apartment._simulate_person_motion. by rewrite Hloop. }
  apply motion_loop_invariant in Hloop as (_ & _ & Hbursts & Hdisj & Hmarks);
    [|done|apply motion_inv_start].
  split; [|split; [done|]].
  - intros b Hb. by destruct (Hbursts b Hb).
  - intros k v Hk. destruct (Hmarks k v Hk) as [[-> Hb]|[-> Hb]].
    + split; [tauto|by right].
    + split; [|by left]. split; [done|tauto].
Qed.

Lemma bursts_bounded_disjoint_witness :
  0 <= Apartment.min_duration flat ∧
  ∃ pm g',
    Apartment.motion_loop 24 (len (Apartment.timestamps flat))
      (Person.get_room1_state (settled 0%nat)) (Apartment.prob_movement flat)
      (Apartment.min_duration flat) (Apartment.max_duration flat)
      0 (zeros (len (Apartment.timestamps flat))) []
      (mkGenerator (sample_stream 5) 0)
    = Some (Ok (pm, [(17, 22); (22, 24)]), g') ∧
    Apartment._simulate_person_motion 24 flat (settled 0%nat)
      (mkGenerator (sample_stream 5) 0) = Some (Ok pm, g') ∧
    (∀ b, b ∈ [(17, 22); (22, 24)] →
       burst_ok (len (Apartment.timestamps flat))
                (Person.get_room1_state (settled 0%nat))
                (Apartment.max_duration flat) b) ∧
    pairwise_disjoint [(17, 22); (22, 24)] ∧
    (∀ (k : nat) v, pm !! k = Some v →
       (v = 1 ↔ in_burst [(17, 22); (22, 24)] k) ∧ (v = 0 ∨ v = 1)).
Proof.
  assert (0 <= Apartment.min_duration flat) as Hlo by (vm_compute; intros [=]).
  split; [exact Hlo|].
  eexists _, _. split; [vm_compute; reflexivity|].
  eapply (bursts_bounded_disjoint flat (settled 0%nat) 24
            (mkGenerator (sample_stream 5) 0)); [exact Hlo|].
  vm_compute. reflexivity.
Defined.

(** C7, as stated, fails when the duration range reaches below zero: a
    duration of -3 drawn at index 20 moves the cursor back to index 17, and
    the next burst covers the span [[17, 20)] a second time. *)
Lemma negative_duration_bursts_overlap :
  Apartment.min_duration restless = -3 ∧
  Apartment.max_duration restless = 3 ∧
  ∃ pm g',
    Apartment.motion_loop 100 (len (Apartment.timestamps restless))
      (Person.get_room1_state (settled 0%nat)) (Apartment.prob_movement restless)
      (Apartment.min_duration restless) (Apartment.max_duration restless)
      0 (zeros (len (Apartment.timestamps restless))) [] jumpy
    = Some (Ok (pm, [(17, 20); (20, 17); (17, 20); (20, 23)]), g') ∧
    Apartment._simulate_person_motion 100 restless (settled 0%nat) jumpy
    = Some (Ok pm, g') ∧
    ¬ pairwise_disjoint [(17, 20); (20, 17); (17, 20); (20, 23)].
Proof.
  split; [reflexivity|]. split; [reflexivity|].
  eexists _, _. split; [vm_compute; reflexivity|].
  split; [vm_compute; reflexivity|].
  intros Hdisj.
  specialize (Hdisj 0%nat 2%nat 17 20 17 20 ltac:(lia) eq_refl eq_refl). lia.
Qed.

(** * Further properties *)

(** ** Calendar features *)

Lemma fractional_hour_range t :
  (0 <= fractional_hour t)%Q ∧ (fractional_hour t < inject_Z 24)%Q.
Proof.
  unfold fractional_hour.
  assert (0 <= dt_hour t <= 23 ∧ 0 <= dt_minute t <= 59 ∧ 0 <= dt_second t <= 59)
    as (Hh & Hm & Hs).
  { unfold dt_hour, dt_minute, dt_second, ns_per_day, ns_per_hour,
      ns_per_minute, ns_per_second.
    repeat split; Z.div_mod_to_equations; lia. }
  unfold Qle, Qlt, Qplus, inject_Z. simpl. lia.
Qed.

(** X1.  The calendar features of an axis are aligned with it: the three
    arrays have the axis' length, every fractional hour lies in [[0, 24)],
    every weekday in [[0, 6]], and every normalized date is the midnight at
    or before its timestamp, less than a day away. *)
Theorem calendar_features_ranges (ts : list Timestamp) :
  let tf := extract_time_features ts in
  length (hours tf) = length ts ∧
  length (weekday tf) = length ts ∧
  length (dates tf) = length ts ∧
  (∀ (i : nat) h, hours tf !! i = Some h → (0 <= h)%Q ∧ (h < inject_Z 24)%Q) ∧
  (∀ (i : nat) w, weekday tf !! i = Some w → 0 <= w <= 6) ∧
  (∀ (i : nat) t d, ts !! i = Some t → dates tf !! i = Some d →
     d <= t < d + ns_per_day ∧ d mod ns_per_day = 0).
Proof.
  cbn [extract_time_features hours weekday dates]. rewrite !length_fmap.
  split; [done|]. split; [done|]. split; [done|]. split; [|split].
  - intros i h. rewrite list_lookup_fmap.
    destruct (ts !! i) as [t|]; [|done]. intros [= <-].
    apply fractional_hour_range.
  - intros i w. rewrite list_lookup_fmap.
    destruct (ts !! i) as [t|]; [|done]. intros [= <-].
    unfold dt_weekday. pose proof (Z.mod_pos_bound (t / ns_per_day + 3) 7). lia.
  - intros i t d. rewrite list_lookup_fmap.
    destruct (ts !! i) as [t'|]; [|done]. intros [= ->] [= <-].
    unfold dt_normalize, ns_per_day, ns_per_hour, ns_per_minute, ns_per_second.
    split; Z.div_mod_to_equations; lia.
Qed.

(** ** Day partitioning *)

Lemma insert_sorted_ascending x l : ascending l → ascending (insert_sorted x l).
Proof.
  induction l as [|y l IH]; intros Hl; simpl.
  - split; [|done]. intros z Hz. by apply elem_of_nil in Hz.
  - destruct Hl as [Hy Hl].
    destruct (Z.ltb_spec x y) as [Hxy|Hxy].
    + split; [|by split]. intros z Hz. apply elem_of_cons in Hz as [->|Hz]; [done|].
      specialize (Hy z Hz). lia.
    + destruct (Z.eqb_spec x y) as [->|Hne]; [by split|].
      split; [|by apply IH].
      intros z Hz. apply insert_sorted_elem in Hz as [->|Hz]; [lia|by apply Hy].
Qed.

Lemma np_unique_ascending a : ascending (np_unique a).
Proof.
  unfold np_unique. induction a as [|x a IH]; [done|].
  simpl. by apply insert_sorted_ascending.
Qed.

Lemma ascending_lookup l (i j : nat) x y :
  ascending l → (i < j)%nat → l !! i = Some x → l !! j = Some y → x < y.
Proof.
  revert i j. induction l as [|z l IH]; intros i j Hl Hij Hi Hj; [done|].
  destruct Hl as [Hz Hl]. destruct j as [|j]; [lia|]. destruct i as [|i].
  - injection Hi as <-. apply Hz. by eapply list_elem_of_lookup_2.
  - apply (IH i j); [done|lia|done|done].
Qed.

Lemma where_eq_from_elem k a v x :
  x ∈ where_eq_from k a v ↔ ∃ j : nat, x = k + Z.of_nat j ∧ a !! j = Some v.
Proof.
  revert k. induction a as [|y a IH]; intros k; simpl.
  - rewrite elem_of_nil. split; [done|]. by intros (j & _ & ?).
  - destruct (Z.eqb_spec y v) as [->|Hne].
    + rewrite elem_of_cons, IH. split.
      * intros [->|(j & -> & Hj)]; [exists 0%nat|exists (S j)];
          (split; [lia|done]).
      * intros ([|j] & -> & Hj); [left; lia|].
        right. exists j. split; [lia|done].
    + rewrite IH. split.
      * intros (j & -> & Hj). exists (S j). split; [lia|done].
      * intros ([|j] & -> & Hj); [by injection Hj|].
        exists j. split; [lia|done].
Qed.

Lemma where_eq_from_ascending k a v : ascending (where_eq_from k a v).
Proof.
  revert k. induction a as [|y a IH]; intros k; simpl; [done|].
  destruct (y =? v); [|apply IH]. split; [|apply IH].
  intros z (j & -> & _)%where_eq_from_elem. lia.
Qed.

Lemma np_where_eq_elem a v x :
  x ∈ np_where_eq a v ↔ ∃ j : nat, x = Z.of_nat j ∧ a !! j = Some v.
Proof. unfold np_where_eq. rewrite where_eq_from_elem. naive_solver. Qed.

Lemma filter_all {A} (p : A → bool) (l : list A) :
  (∀ x, x ∈ l → p x = true) → List.filter p l = l.
Proof.
  induction l as [|x l IH]; intros Hall; [done|]. simpl.
  rewrite (Hall x) by left. f_equal. apply IH. intros y Hy. apply Hall. by right.
Qed.

(** The groups are the index sets of the distinct dates, in date order. *)
Lemma day_indices_unfold ts :
  Person._get_day_indices (extract_time_features ts)
  = (λ day, np_where_eq (dates (extract_time_features ts)) day)
      <$> np_unique (dates (extract_time_features ts)).
Proof.
  unfold Person._get_day_indices. cbv zeta. f_equal. apply filter_all.
  intros day Hday. apply np_any_eq_elem. by apply np_unique_elem.
Qed.

(** X2.  [_get_day_indices] partitions the axis: every group is non-empty,
    strictly increasing and holds exactly the indices of one date; the
    groups come in increasing date order, so no index lies in two of them;
    and every index of the axis lies in some group. *)
Theorem day_indices_partition (ts : list Timestamp) :
  let tf := extract_time_features ts in
  let groups := Person._get_day_indices tf in
  (∀ (a : nat) g, groups !! a = Some g →
     g ≠ [] ∧ ascending g ∧
     ∃ day, np_unique (dates tf) !! a = Some day ∧
            ∀ x, x ∈ g ↔ ∃ j : nat, x = Z.of_nat j ∧ dates tf !! j = Some day) ∧
  (∀ (a b : nat) ga gb x,
     (a < b)%nat → groups !! a = Some ga → groups !! b = Some gb →
     x ∈ ga → x ∉ gb) ∧
  (∀ j : nat, (j < length ts)%nat → ∃ g, g ∈ groups ∧ Z.of_nat j ∈ g).
Proof.
  intros tf groups. subst groups tf. rewrite day_indices_unfold.
  set (tf := extract_time_features ts).
  assert (∀ (a : nat) g,
            ((λ day, np_where_eq (dates tf) day) <$> np_unique (dates tf)) !! a
            = Some g →
            ∃ day, np_unique (dates tf) !! a = Some day ∧
                   g = np_where_eq (dates tf) day) as Hgroup.
  { intros a g. rewrite list_lookup_fmap.
    destruct (np_unique (dates tf) !! a) as [day|]; [|done].
    intros [= <-]. by exists day. }
  split; [|split].
  - intros a g (day & Hday & ->)%Hgroup.
    split; [|split; [apply where_eq_from_ascending|]].
    + assert (day ∈ dates tf) as Hin.
      { apply np_unique_elem. by eapply list_elem_of_lookup_2. }
      apply list_elem_of_lookup_1 in Hin as [j Hj].
      assert (Z.of_nat j ∈ np_where_eq (dates tf) day) as Hx.
      { apply np_where_eq_elem. by exists j. }
      intros E. rewrite E in Hx. by apply elem_of_nil in Hx.
    + exists day. split; [done|]. intros x. apply np_where_eq_elem.
  - intros a b ga gb x Hab (da & Hda & ->)%Hgroup (db & Hdb & ->)%Hgroup.
    intros (j & -> & Hj)%np_where_eq_elem (j' & E & Hj')%np_where_eq_elem.
    assert (j' = j) as -> by lia. rewrite Hj in Hj'. injection Hj' as ->.
    pose proof (ascending_lookup _ a b db db (np_unique_ascending _) Hab Hda Hdb).
    lia.
  - intros j Hj.
    destruct (lookup_lt_is_Some_2 (dates tf) j) as [day Hday].
    { subst tf. cbn [extract_time_features dates]. by rewrite length_fmap. }
    exists (np_where_eq (dates tf) day). split.
    + apply list_elem_of_fmap. exists day. split; [done|].
      apply np_unique_elem. by eapply list_elem_of_lookup_2.
    + apply np_where_eq_elem. by exists j.
Qed.

(** ** Outcomes of the sampling stages *)

Lemma safe_ret {A} Q (P : A → Prop) a g : P a → safe Q P ((mret a : M A) g).
Proof. done. Qed.

Lemma safe_bind {A B} Q (P1 : A → Prop) (P2 : B → Prop) (m : M A) (f : A → M B) g :
  safe Q P1 (m g) →
  (∀ a g1, P1 a → safe Q P2 (f a g1)) →
  safe Q P2 ((m ≫= f) g).
Proof.
  unfold safe, mbind, M_bind. destruct (m g) as [[a|e] g1]; cbn [fst].
  - intros Ha Hf. by apply Hf.
  - done.
Qed.

Lemma safe_lift {A} Q (P : A → Prop) (r : result A) a g :
  r = Ok a → P a → safe Q P (lift r g).
Proof. by intros ->. Qed.

Lemma safe_integers Q low high g :
  (Q → low <= high) →
  safe Q (λ v, low <= v <= high) (Sampling.integers low (high + 1) g).
Proof.
  intros HQ. unfold safe.
  destruct (Sampling.integers low (high + 1) g) as [[v|e] g'] eqn:E; cbn [fst].
  - apply integers_in_range in E. lia.
  - unfold Sampling.integers in E.
    destruct (Z.leb_spec (high + 1) low); [|done].
    injection E as <- _. split; [done|]. intros HQ'%HQ. lia.
Qed.

Lemma safe_choice Q (valid : list Z) g :
  valid ≠ [] → safe Q (λ x, x ∈ valid) (Sampling.choice valid g).
Proof.
  intros Hne. unfold safe, Sampling.choice.
  destruct valid as [|v0 valid']; [done|]. set (valid := v0 :: valid').
  cbn [next fst].
  assert (0 <= bits g (drawn g) `mod` len valid < len valid) as Hr.
  { apply Z.mod_pos_bound. unfold len. simpl. lia. }
  destruct (lookup_lt_is_Some_2 valid (Z.to_nat (bits g (drawn g) `mod` len valid)))
    as [x Hx]; [unfold len in *; lia|].
  rewrite (proj2 (getitem_nonneg valid _ x (proj1 Hr)) Hx).
  by eapply list_elem_of_lookup_2.
Qed.

Lemma safe_for_each {A S} Q (P : S → Prop) (xs : list A) (body : A → S → M S) :
  (∀ x s g, x ∈ xs → P s → safe Q P (body x s g)) →
  ∀ s g, P s → safe Q P (for_each xs body s g).
Proof.
  induction xs as [|x xs IH]; intros Hbody s g Hs; cbn [for_each].
  - by apply safe_ret.
  - apply (safe_bind Q P P).
    + apply Hbody; [by left|done].
    + intros s1 g1 Hs1. apply IH; [|done].
      intros y t h Hy. apply Hbody. by right.
Qed.

Lemma safe_for_range {S} Q (P : S → Prop) k (body : S → M S) :
  (∀ s g, P s → safe Q P (body s g)) →
  ∀ s g, P s → safe Q P (for_range k body s g).
Proof.
  intros Hbody. unfold for_range. apply safe_for_each. intros _ s g _. apply Hbody.
Qed.

(** ** Indices stay within the axis *)

Lemma day_group_bounds ts g :
  g ∈ Person._get_day_indices (extract_time_features ts) →
  g ≠ [] ∧ ∀ x, x ∈ g → 0 <= x < len ts.
Proof.
  rewrite day_indices_unfold. set (tf := extract_time_features ts).
  intros (day & -> & Hday)%list_elem_of_fmap. split.
  - apply (proj1 (np_unique_elem _ _)) in Hday.
    apply list_elem_of_lookup_1 in Hday as [j Hj].
    assert (Z.of_nat j ∈ np_where_eq (dates tf) day) as Hx.
    { apply np_where_eq_elem. exists j. split; [reflexivity|exact Hj]. }
    intros E. rewrite E in Hx. by apply elem_of_nil in Hx.
  - intros x (j & -> & Hj)%np_where_eq_elem.
    apply lookup_lt_Some in Hj. subst tf.
    cbn [extract_time_features dates] in Hj.
    rewrite length_fmap in Hj. unfold len. lia.
Qed.

Lemma awake_inside_defined inside sleeping (n : nat) i :
  length inside = n → length sleeping = n → 0 <= i < Z.of_nat n →
  ∃ b, Person.awake_inside inside sleeping i = Ok b.
Proof.
  intros Hi Hs Hr. unfold Person.awake_inside.
  destruct (lookup_lt_is_Some_2 inside (Z.to_nat i)) as [x Hx]; [lia|].
  destruct (lookup_lt_is_Some_2 sleeping (Z.to_nat i)) as [y Hy]; [lia|].
  rewrite (proj2 (getitem_nonneg inside i x (proj1 Hr)) Hx).
  rewrite (proj2 (getitem_nonneg sleeping i y (proj1 Hr)) Hy).
  cbn [mbind result_bind]. destruct (truthy x); eauto.
Qed.

Lemma valid_indices_defined inside sleeping (n : nat) day_indices :
  length inside = n → length sleeping = n →
  (∀ x, x ∈ day_indices → 0 <= x < Z.of_nat n) →
  ∃ valid, Person.valid_indices inside sleeping day_indices = Ok valid ∧
           ∀ x, x ∈ valid → x ∈ day_indices.
Proof.
  intros Hi Hs. induction day_indices as [|i rest IH]; intros Hall.
  - exists []. done.
  - destruct (awake_inside_defined inside sleeping n i Hi Hs) as [c Hc].
    { apply Hall. by left. }
    destruct IH as (valid & Hvalid & Hsub).
    { intros x Hx. apply Hall. by right. }
    cbn [Person.valid_indices]. rewrite Hc, Hvalid. cbn [mbind result_bind mret result_ret].
    eexists. split; [reflexivity|].
    intros x Hx. destruct c.
    + apply elem_of_cons in Hx as [->|Hx]; [by left|]. right. by apply Hsub.
    + right. by apply Hsub.
Qed.

Lemma last_defined (g : list Z) :
  g ≠ [] → ∃ last, getitem g (-1) = Ok last ∧ last ∈ g.
Proof.
  intros Hne.
  assert (0 < length g)%nat as Hlen by (destruct g; [done|simpl; lia]).
  destruct (lookup_lt_is_Some_2 g (length g - 1)) as [x Hx]; [lia|].
  exists x. split; [|by eapply list_elem_of_lookup_2].
  apply getitem_Ok. unfold norm_index, len. cbn.
  split; [lia|]. by replace (Z.to_nat (-1 + Z.of_nat (length g))) with (length g - 1)%nat by lia.
Qed.

(** The three event loops share one shape and differ in their fill. *)
Lemma event_loop_safe Q (P : list Z → Prop) inside sleeping (n : nat)
    (fill : list Z → list Z → result (list Z)) c1 c2 d1 d2
    (groups : list (list Z)) :
  length inside = n → length sleeping = n →
  (Q → c1 <= c2 ∧ d1 <= d2) →
  (∀ g, g ∈ groups → g ≠ [] ∧ ∀ x, x ∈ g → 0 <= x < Z.of_nat n) →
  (∀ idx s, (∀ i, i ∈ idx → 0 <= i < Z.of_nat n) → P s →
            ∃ s', fill idx s = Ok s' ∧ P s') →
  ∀ s g, P s →
    safe Q P
      (for_each groups (λ day_indices s,
         n_events ← Sampling.integers c1 (c2 + 1);
         for_range n_events (λ s,
           valid ← lift (Person.valid_indices inside sleeping day_indices);
           match valid with
           | [] => mret s
           | _ :: _ =>
               start_idx ← Sampling.choice valid;
               duration ← Sampling.integers d1 (d2 + 1);
               last ← lift (getitem day_indices (-1));
               lift (fill (range start_idx
                             (Z.min (start_idx + duration) (last + 1))) s)
           end) s) s g).
Proof.
  intros Hi Hs HQ Hgroups Hfill. apply safe_for_each.
  intros day s g Hday Hp. destruct (Hgroups day Hday) as [Hne Hbounds].
  apply (safe_bind Q (λ v, c1 <= v <= c2) P).
  { apply safe_integers. intros HQ'. by apply HQ. }
  intros n_events g1 _. apply safe_for_range; [|done].
  clear s g g1 Hp. intros s g Hp.
  destruct (valid_indices_defined inside sleeping n day Hi Hs Hbounds)
    as (valid & Hvalid & Hsub).
  apply (safe_bind Q (λ v, v = valid) P).
  { by apply (safe_lift _ _ _ valid). }
  intros ? g1 ->. destruct valid as [|v0 valid']; [by apply safe_ret|].
  set (valid := v0 :: valid') in *.
  apply (safe_bind Q (λ x, x ∈ valid) P); [by apply safe_choice|].
  intros start_idx g2 Hstart.
  apply (safe_bind Q (λ v, d1 <= v <= d2) P).
  { apply safe_integers. intros HQ'. by apply HQ. }
  intros duration g3 _.
  destruct (last_defined day Hne) as (last & Hlast & Hlast_in).
  apply (safe_bind Q (λ v, v = last) P).
  { by apply (safe_lift _ _ _ last). }
  intros ? g4 ->.
  destruct (Hfill (range start_idx (Z.min (start_idx + duration) (last + 1))) s)
    as (s' & Hs' & Hp'); [|done|].
  { intros i Hi'. unfold range in Hi'. apply elem_of_seqZ in Hi'.
    pose proof (Hbounds start_idx (Hsub _ Hstart)).
    pose proof (Hbounds last Hlast_in). lia. }
  by apply (safe_lift _ _ _ s').
Qed.

(** ** The fills never leave the axis *)

Lemma binary_insert_1 (a : list Z) (k : nat) : binary a → binary (<[k := 1]> a).
Proof.
  intros Ha j v Hj. destruct (decide (j = k)) as [->|Hne].
  - apply list_lookup_insert_Some in Hj as [(_ & <- & _)|[? _]]; [by right|done].
  - rewrite list_lookup_insert_ne in Hj by done. by eapply Ha.
Qed.

Lemma setitem_1_shape (n : nat) a i :
  shape n a → 0 <= i < Z.of_nat n →
  ∃ a', setitem a i 1 = Ok a' ∧ shape n a'.
Proof.
  intros [Hlen Hbin] Hi. exists (<[Z.to_nat i := 1]> a). split.
  - apply setitem_Ok. unfold norm_index, len.
    destruct (Z.ltb_spec i 0); [lia|]. split; [lia|done].
  - split; [by rewrite length_insert|by apply binary_insert_1].
Qed.

Lemma fill_window_defined inside sleeping (n : nat) :
  length inside = n → length sleeping = n →
  ∀ idx w, (∀ i, i ∈ idx → 0 <= i < Z.of_nat n) → shape n w →
    ∃ w', Person.fill_window inside sleeping idx w = Ok w' ∧ shape n w'.
Proof.
  intros Hi Hs. induction idx as [|i idx IH]; intros w Hall Hw.
  - by exists w.
  - assert (0 <= i < Z.of_nat n) as Hr by (apply Hall; by left).
    destruct (awake_inside_defined inside sleeping n i Hi Hs Hr) as [c Hc].
    cbn [Person.fill_window].
    rewrite (proj2 (away_or_asleep_awake inside sleeping i (negb c)))
      by (by rewrite negb_involutive).
    cbn [mbind result_bind]. destruct c; cbn [negb]; [|by exists w].
    destruct (setitem_1_shape n w i Hw Hr) as (w1 & -> & Hw1).
    cbn [mbind result_bind]. apply IH; [|done].
    intros j Hj. apply Hall. by right.
Qed.

Lemma fill_room1_defined inside sleeping (n : nat) :
  length inside = n → length sleeping = n →
  ∀ idx r, (∀ i, i ∈ idx → 0 <= i < Z.of_nat n) → shape n r →
    ∃ r', Person.fill_room1 (Z.of_nat n) inside sleeping idx r = Ok r' ∧ shape n r'.
Proof.
  intros Hi Hs. induction idx as [|i idx IH]; intros r Hall Hr.
  - by exists r.
  - assert (0 <= i < Z.of_nat n) as Hir by (apply Hall; by left).
    destruct (awake_inside_defined inside sleeping n i Hi Hs Hir) as [c Hc].
    cbn [Person.fill_room1]. destruct (Z.leb_spec (Z.of_nat n) i); [lia|].
    rewrite Hc. cbn [mbind result_bind].
    assert (∀ j, j ∈ idx → 0 <= j < Z.of_nat n) as Hrest.
    { intros j Hj. apply Hall. by right. }
    destruct c.
    + destruct (setitem_1_shape n r i Hr Hir) as (r1 & -> & Hr1).
      cbn [mbind result_bind]. by apply IH.
    + cbn [mret result_ret mbind result_bind]. by apply IH.
Qed.

Lemma fill_door_defined (n : nat) :
  ∀ idx d, (∀ i, i ∈ idx → 0 <= i < Z.of_nat n) → shape n d →
    ∃ d', Person.fill_door (Z.of_nat n) idx d = Ok d' ∧ shape n d'.
Proof.
  induction idx as [|i idx IH]; intros d Hall Hd.
  - by exists d.
  - assert (0 <= i < Z.of_nat n) as Hir by (apply Hall; by left).
    cbn [Person.fill_door]. destruct (Z.leb_spec (Z.of_nat n) i); [lia|].
    destruct (setitem_1_shape n d i Hd Hir) as (d1 & -> & Hd1).
    cbn [mbind result_bind]. apply IH; [|done].
    intros j Hj. apply Hall. by right.
Qed.

Lemma zeros_shape (n : nat) : shape n (zeros (Z.of_nat n)).
Proof.
  split; [by rewrite zeros_length, Nat2Z.id|].
  intros k v ->%zeros_lookup. by left.
Qed.

Lemma transitions_binary inside : binary (Person.transitions inside).
Proof.
  intros k v (a & b & -> & _)%lookup_zip_with_Some. destruct (a =? b); auto.
Qed.

Lemma door_start_shape (ts : list Timestamp) inside :
  length inside = length ts →
  ∃ d0, Person.assign_from_1 (zeros (len ts)) (Person.transitions inside) = Ok d0 ∧
        shape (length ts) d0.
Proof.
  intros Hi. unfold Person.assign_from_1.
  assert (length (Person.transitions inside) = length (drop 1 (zeros (len ts))))
    as Hlen.
  { unfold Person.transitions.
    rewrite length_zip_with, !length_drop, length_take, zeros_length.
    unfold len. lia. }
  rewrite bool_decide_eq_true_2 by done. eexists. split; [reflexivity|]. split.
  - rewrite length_app, Hlen, length_take, length_drop, zeros_length.
    unfold len. lia.
  - intros k v Hk. apply lookup_app_Some in Hk as [Hk|[_ Hk]].
    + apply lookup_take_Some in Hk as [Hk _]. apply zeros_lookup in Hk. by left.
    + by apply transitions_binary in Hk.
Qed.

Section Stages.
Variables (self : Person.t) (ts : list Timestamp).
Hypothesis Hbound : Person.timestamps self = Some ts.

Let tf := extract_time_features ts.
Let inside := Person._generate_inside self tf.
Let sleeping := Person._generate_sleeping self tf.
Let n := length ts.

Lemma stage_day_groups g :
  g ∈ Person._get_day_indices tf → g ≠ [] ∧ ∀ x, x ∈ g → 0 <= x < Z.of_nat n.
Proof. apply day_group_bounds. Qed.

Lemma room1_stage_safe g :
  safe (well_ranged self) (shape n)
       (Person._generate_room1 self tf inside sleeping g).
Proof.
  unfold Person._generate_room1. cbv zeta.
  assert (len (hours tf) = Z.of_nat n) as ->.
  { subst tf n. cbn [extract_time_features hours]. unfold len.
    by rewrite length_fmap. }
  destruct (Z.of_nat n =? 0); [apply safe_ret, zeros_shape|].
  apply (event_loop_safe _ _ inside sleeping n
           (Person.fill_room1 (Z.of_nat n) inside sleeping)).
  - apply inside_length.
  - apply sleeping_length.
  - intros (? & ? & _). done.
  - apply stage_day_groups.
  - apply fill_room1_defined; [apply inside_length|apply sleeping_length].
  - apply zeros_shape.
Qed.

Lemma window_stage_safe g :
  safe (well_ranged self) (shape n)
       (Person._generate_window_state self tf inside sleeping g).
Proof.
  unfold Person._generate_window_state, Person.len_timestamps. rewrite Hbound.
  rewrite (bind_M_step _ _ g (len ts) g) by reflexivity.
  apply (event_loop_safe _ _ inside sleeping n
           (Person.fill_window inside sleeping)).
  - apply inside_length.
  - apply sleeping_length.
  - intros (_ & _ & ? & ? & _). done.
  - apply stage_day_groups.
  - apply fill_window_defined; [apply inside_length|apply sleeping_length].
  - apply zeros_shape.
Qed.

Lemma door_stage_safe g :
  safe (well_ranged self) (shape n)
       (Person._generate_door_state self tf inside sleeping g).
Proof.
  unfold Person._generate_door_state, Person.len_timestamps. rewrite Hbound.
  rewrite (bind_M_step _ _ g (len ts) g) by reflexivity.
  destruct (door_start_shape ts inside (inside_length self ts)) as (d0 & Hd0 & Hshape).
  rewrite (bind_M_step _ _ g d0 g) by (by rewrite Hd0).
  apply (event_loop_safe _ _ inside sleeping n
           (Person.fill_door (len ts))).
  - apply inside_length.
  - apply sleeping_length.
  - intros (_ & _ & _ & _ & ? & ?). done.
  - apply stage_day_groups.
  - apply fill_door_defined.
  - done.
Qed.

Lemma compute_timeline_safe g :
  safe (well_ranged self)
       (λ tl, ∃ room1 windows doors,
                tl = (inside, sleeping, room1, windows, doors) ∧
                shape n inside ∧ shape n sleeping ∧
                shape n room1 ∧ shape n windows ∧ shape n doors)
       (Person.compute_timeline self ts g).
Proof.
  unfold Person.compute_timeline. cbv zeta. fold tf. fold inside. fold sleeping.
  apply (safe_bind _ (shape n)); [apply room1_stage_safe|]. intros room1 g1 Hr.
  apply (safe_bind _ (shape n)); [apply window_stage_safe|]. intros windows g2 Hw.
  apply (safe_bind _ (shape n)); [apply door_stage_safe|]. intros doors g3 Hd.
  apply safe_ret. exists room1, windows, doors. split; [done|].
  split; [|split; [|done]].
  - split; [apply inside_length|]. intros k v. apply inside_binary.
  - split; [apply sleeping_length|]. intros k v. apply sleeping_binary.
Qed.
End Stages.


(** ** Presence *)

(** X4.  [inside] is a function of the calendar alone: at every timestamp it
    is 0 when the fractional hour lies in one of the outside intervals
    [[start, end)] configured for the day type (weekdays for Monday to
    Friday, weekend otherwise), and 1 when it lies in none. *)
Theorem inside_follows_outside_hours
    (self : Person.t) (ts : list Timestamp) (i : nat) (h : Q) (w : Z)
    (Hh : hours (extract_time_features ts) !! i = Some h)
    (Hw : weekday (extract_time_features ts) !! i = Some w) :
  let intervals := if w <? 5 then Person.outside_hours_weekdays self
                   else Person.outside_hours_weekend self in
  ∃ v, Person._generate_inside self (extract_time_features ts) !! i = Some v ∧
       (v = 0 ∨ v = 1) ∧
       (v = 0 ↔ ∃ start end_, (start, end_) ∈ intervals ∧
                              (inject_Z start <= h)%Q ∧ (h < inject_Z end_)%Q).
Proof.
  intros intervals. unfold Person._generate_inside.
  eexists. split.
  { apply lookup_zip_with_Some. eexists _, _. split; [reflexivity|]. by split. }
  unfold Person._is_outside. fold intervals.
  destruct (existsb _ intervals) eqn:E.
  - split; [by left|]. split; [|done]. intros _.
    apply existsb_exists in E as ([s e] & Hin & Hb).
    apply andb_true_iff in Hb as [H1%le_hour_spec H2%hour_lt_spec].
    exists s, e. split; [by apply list_elem_of_In|done].
  - split; [by right|]. split; [done|].
    intros (s & e & Hin & H1 & H2). exfalso.
    assert (existsb (λ '(start, end_), le_hour start h && hour_lt h end_)
              intervals = true) as E'; [|congruence].
    apply existsb_exists. exists (s, e). split; [by apply list_elem_of_In|].
    apply andb_true_iff. split; [by apply le_hour_spec|by apply hour_lt_spec].
Qed.

(** ** Room and door fills *)

Lemma fill_room1_skips n inside sleeping pre j post :
  j < n →
  Person.awake_inside inside sleeping j = Ok false →
  ∀ r, Person.fill_room1 n inside sleeping (pre ++ j :: post) r
       = Person.fill_room1 n inside sleeping (pre ++ post) r.
Proof.
  intros Hj Hc. induction pre as [|i pre IH]; intros r.
  - cbn [app Person.fill_room1]. destruct (Z.leb_spec n j); [lia|].
    rewrite Hc. done.
  - cbn [app Person.fill_room1]. destruct (n <=? i); [done|].
    destruct (Person.awake_inside inside sleeping i) as [c|e]; [|done].
    cbn [mbind result_bind].
    destruct (if c then setitem r i 1 else mret r) as [r1|e]; [|done].
    cbn [mbind result_bind]. apply IH.
Qed.

(** X5.  Whenever [generate] returns, the room array is set only where the
    person is inside and awake; unlike the window fill, the room fill does
    not stop at an index that fails the test: it skips that index and goes
    on with the rest of the range. *)
Theorem room1_confined_fill_skips
    (p0 : Person.t) (ts : list Timestamp)
    (inside sleeping room1 windows doors : list Z) (p' : Person.t)
    (Hgen : Person.generate (Person.set_timeline p0 ts)
            = (Ok (inside, sleeping, room1, windows, doors), p')) :
  confined inside sleeping room1 ∧
  ∀ (n : Z) (pre : list Z) (j : Z) (post r : list Z),
    j < n →
    Person.awake_inside inside sleeping j = Ok false →
    Person.fill_room1 n inside sleeping (pre ++ j :: post) r
    = Person.fill_room1 n inside sleeping (pre ++ post) r.
Proof.
  split.
  - apply generate_bound_Ok in Hgen as (Hrun & _ & _).
    apply compute_timeline_Ok in Hrun
      as (r & w & d & g1 & g2 & [= -> -> -> -> ->] & Hr & _).
    apply awake_at_confined. eapply room1_invariant; [| |exact Hr].
    + apply inside_length.
    + by rewrite sleeping_length, inside_length.
  - intros n pre j post r Hj Hc. by apply fill_room1_skips.
Qed.

Lemma fill_door_marks (idx d : list Z) :
  (∀ i, i ∈ idx → 0 <= i < len d) →
  Person.fill_door (len d) idx d = Ok (mark d idx).
Proof.
  revert d. induction idx as [|i idx IH]; intros d Hall; [done|].
  assert (0 <= i < len d) as Hi by (apply Hall; by left).
  cbn [Person.fill_door]. destruct (Z.leb_spec (len d) i); [lia|].
  unfold setitem, norm_index. destruct (Z.ltb_spec i 0); [lia|].
  destruct (Z.leb_spec 0 i); [|lia]. destruct (Z.ltb_spec i (len d)); [|lia].
  cbn [andb mbind result_bind].
  assert (len (<[Z.to_nat i := 1]> d) = len d) as Hlen.
  { unfold len. by rewrite length_insert. }
  rewrite <- Hlen at 1. rewrite IH; [done|].
  intros j Hj. rewrite Hlen. apply Hall. by right.
Qed.

(** X6.  Whenever [generate] returns, the door array is 1 at every index
    whose [inside] differs from that of the index before; and the door fill
    is unconditional: over a range within the axis it marks every index,
    whatever [inside] and [sleeping] hold there. *)
Theorem door_marks_transitions_and_ranges
    (p0 : Person.t) (ts : list Timestamp)
    (inside sleeping room1 windows doors : list Z) (p' : Person.t)
    (Hgen : Person.generate (Person.set_timeline p0 ts)
            = (Ok (inside, sleeping, room1, windows, doors), p')) :
  (∀ (k : nat) a b,
     inside !! k = Some a → inside !! S k = Some b → a ≠ b →
     doors !! S k = Some 1) ∧
  (∀ idx d : list Z,
     (∀ i, i ∈ idx → 0 <= i < len d) →
     Person.fill_door (len d) idx d = Ok (mark d idx)).
Proof.
  split; [|apply fill_door_marks].
  apply generate_bound_Ok in Hgen as (Hrun & _ & _).
  apply compute_timeline_Ok in Hrun
    as (r & w & d & g1 & g2 & [= -> -> -> -> ->] & _ & _ & Hd).
  eapply door_state_transitions; [| |exact Hd].
  - reflexivity.
  - apply inside_length.
Qed.

(** ** Motion: completion and shape *)

Lemma generated_room1 p0 ts tl p' :
  Person.generate (Person.set_timeline p0 ts) = (Ok tl, p') →
  ∃ r, Person.get_room1_state p' = Some r ∧ length r = length ts.
Proof.
  intros Hgen. apply generate_bound_Ok in Hgen as (Hrun & _ & Hcache).
  apply compute_timeline_Ok in Hrun
    as (r & w & d & g1 & g2 & -> & Hr & _).
  unfold Person.get_room1_state. rewrite Hcache. exists r. split; [done|].
  apply room1_invariant in Hr as [Hlen _].
  - by rewrite Hlen, inside_length.
  - apply inside_length.
  - by rewrite sleeping_length, inside_length.
Qed.

Lemma motion_loop_no_raise (n : nat) (r : list Z) prob lo hi :
  length r = n → 0 <= lo <= hi →
  ∀ fuel i pm bursts g e g',
    0 <= i →
    Apartment.motion_loop fuel (Z.of_nat n) (Some r) prob lo hi i pm bursts g
    ≠ Some (Raise e, g').
Proof.
  intros Hr Hlo. induction fuel as [|fuel IH]; intros i pm bursts g e g' Hi;
    cbn [Apartment.motion_loop].
  - by destruct (i <? Z.of_nat n).
  - destruct (Z.ltb_spec i (Z.of_nat n)) as [Hin|_]; [|done].
    cbn [Apartment.subscript].
    destruct (lookup_lt_is_Some_2 r (Z.to_nat i)) as [v Hv]; [lia|].
    rewrite (proj2 (getitem_nonneg r i v Hi) Hv).
    destruct (0 <? v); [|apply IH; lia].
    destruct (Sampling.rand g) as [u g1].
    destruct (Apartment.rand_lt u prob); [|apply IH; lia].
    destruct (Sampling.integers lo (hi + 1) g1) as [[d|e'] g2] eqn:Ed.
    + apply integers_in_range in Ed as [Hd _]. apply IH. lia.
    + unfold Sampling.integers in Ed.
      destruct (Z.leb_spec (hi + 1) lo); [lia|done].
Qed.

Lemma simulate_defined fuel (self : Apartment.t) person r g :
  Person.get_room1_state person = Some r →
  length r = length (Apartment.timestamps self) →
  1 <= Apartment.min_duration self <= Apartment.max_duration self →
  (length (Apartment.timestamps self) ≤ fuel)%nat →
  ∃ pm g', Apartment._simulate_person_motion fuel self person g
           = Some (Ok pm, g') ∧
           shape (length (Apartment.timestamps self)) pm.
Proof.
  intros Hroom Hr Hlo Hfuel. unfold Apartment._simulate_person_motion.
  rewrite Hroom. set (n := length (Apartment.timestamps self)) in *.
  unfold len. fold n.
  destruct (motion_loop_terminates (Z.of_nat n) (Some r)
              (Apartment.prob_movement self) (Apartment.min_duration self)
              (Apartment.max_duration self) (proj1 Hlo) fuel 0
              (zeros (Z.of_nat n)) [] g) as [[[[pm bs]|e] g'] Hloop]; [lia| |].
  - rewrite Hloop. exists pm, g'. split; [done|].
    apply motion_loop_invariant in Hloop as (_ & Hlen & _ & _ & Hmarks);
      [|lia|apply motion_inv_start].
    split; [unfold len in Hlen; lia|].
    intros k v Hk. destruct (Hmarks k v Hk) as [[-> _]|[-> _]]; auto.
  - by apply motion_loop_no_raise in Hloop; [|done|lia|].
Qed.

Lemma merged_shape n acc state m :
  merged n acc state → astype_int state = Ok m → shape n m.
Proof.
  intros (_ & _ & Hint) Hm. rewrite Hint in Hm. injection Hm as <-.
  unfold elementwise_or. split; [by rewrite length_fmap, length_seq|].
  intros k v. rewrite list_lookup_fmap.
  destruct (seq 0 n !! k); [|done]. intros [= <-].
  destruct (existsb _ acc); auto.
Qed.

Lemma motion_of_persons_defined fuel (self : Apartment.t) (st : store) :
  1 <= Apartment.min_duration self <= Apartment.max_duration self →
  (length (Apartment.timestamps self) ≤ fuel)%nat →
  ∀ ps acc motion g,
    (∀ k, k ∈ ps → ∃ r, Person.get_room1_state (st k) = Some r ∧
                        length r = length (Apartment.timestamps self)) →
    merged (length (Apartment.timestamps self)) acc motion →
    ∃ acc' motion' g',
      Apartment.motion_of_persons fuel self st ps motion g
      = Some (Ok motion', g') ∧
      merged (length (Apartment.timestamps self)) acc' motion'.
Proof.
  intros Hlo Hfuel. induction ps as [|k ps IH]; intros acc motion g Hall Hm.
  - by exists acc, motion, g.
  - destruct (Hall k) as (r & Hroom & Hr); [by left|].
    destruct (simulate_defined fuel self (st k) r g Hroom Hr Hlo Hfuel)
      as (pm & g1 & Hsim & [Hlen _]).
    destruct (merged_step _ acc motion pm Hm Hlen) as (motion1 & Hor & Hm1).
    cbn [Apartment.motion_of_persons]. rewrite Hsim, Hor.
    apply (IH (acc ++ [pm])); [|done].
    intros j Hj. apply Hall. by right.
Qed.

Lemma apartment_generate_defined
    (self : Apartment.t) (st : store) (fuel : nat) (g : Generator) :
  (∀ k, k ∈ Apartment.persons self →
     ∃ p0 tl, Person.generate
                (Person.set_timeline p0 (Apartment.timestamps self))
              = (Ok tl, st k)) →
  1 <= Apartment.min_duration self <= Apartment.max_duration self →
  (length (Apartment.timestamps self) ≤ fuel)%nat →
  ∃ motion g',
    Apartment.generate fuel self st g
    = Some (Ok (Apartment.mk (Apartment.timestamps self) (Apartment.persons self)
                  (Apartment.prob_movement self) (Apartment.min_duration self)
                  (Apartment.max_duration self) (Apartment.seed self)
                  (Some motion)), g') ∧
    shape (length (Apartment.timestamps self)) motion.
Proof.
  intros Hgen Hdur Hfuel.
  destruct (motion_of_persons_defined fuel self st Hdur Hfuel
              (Apartment.persons self) []
              (IntArray (zeros (len (Apartment.timestamps self)))) g)
    as (acc & motion & g' & Hrun & Hm).
  { intros k Hk. destruct (Hgen k Hk) as (p0 & tl & Hk').
    by apply generated_room1 in Hk'. }
  { apply merged_zeros. }
  destruct Hm as (Hobj & Htruth & Hint).
  exists (elementwise_or (length (Apartment.timestamps self)) acc), g'.
  unfold Apartment.generate, Apartment._generate_motion.
  rewrite Hrun, Hint. split; [done|].
  by apply (merged_shape _ acc motion).
Qed.


(** ** Motion: nobody in the room *)

Lemma motion_loop_idle (n : nat) (r : list Z) prob lo hi :
  length r = n →
  (∀ (k : nat) v, r !! k = Some v → v <= 0) →
  ∀ fuel i pm bursts g,
    0 <= i → Z.of_nat n - i <= Z.of_nat fuel →
    Apartment.motion_loop fuel (Z.of_nat n) (Some r) prob lo hi i pm bursts g
    = Some (Ok (pm, bursts), g).
Proof.
  intros Hr Hidle. induction fuel as [|fuel IH]; intros i pm bursts g Hi Hfuel;
    cbn [Apartment.motion_loop].
  - destruct (Z.ltb_spec i (Z.of_nat n)); [lia|done].
  - destruct (Z.ltb_spec i (Z.of_nat n)) as [Hin|_]; [|done].
    cbn [Apartment.subscript].
    destruct (lookup_lt_is_Some_2 r (Z.to_nat i)) as [v Hv]; [lia|].
    rewrite (proj2 (getitem_nonneg r i v Hi) Hv).
    pose proof (Hidle _ _ Hv). destruct (Z.ltb_spec 0 v); [lia|].
    apply IH; lia.
Qed.

Lemma zeros_not_truthy (n k : nat) :
  (k < n)%nat → truthy (zeros (Z.of_nat n) !!! k) = false.
Proof.
  intros Hk. unfold zeros. by rewrite lookup_total_replicate_2 by lia.
Qed.

Lemma elementwise_or_zeros (n : nat) (acc : list (list Z)) :
  (∀ a, a ∈ acc → a = zeros (Z.of_nat n)) →
  elementwise_or n acc = zeros (Z.of_nat n).
Proof.
  intros Hacc. unfold elementwise_or.
  replace (zeros (Z.of_nat n)) with (replicate (length (seq 0 n)) 0)
    by (unfold zeros; by rewrite length_seq, Nat2Z.id).
  apply const_fmap. intros i k Hk.
  apply lookup_seq in Hk as [-> Hk].
  assert (existsb (λ a : list Z, truthy (a !!! (0 + i)%nat)) acc = false)
    as ->; [|done].
  induction acc as [|a acc IH]; [done|]. cbn [existsb].
  rewrite (Hacc a) by left. rewrite zeros_not_truthy by lia. cbn [orb].
  apply IH. intros b Hb. apply Hacc. by right.
Qed.

Lemma motion_of_persons_idle fuel (self : Apartment.t) (st : store) :
  (length (Apartment.timestamps self) ≤ fuel)%nat →
  ∀ ps acc motion g,
    (∀ k, k ∈ ps → ∃ r, Person.get_room1_state (st k) = Some r ∧
                        length r = length (Apartment.timestamps self) ∧
                        ∀ (j : nat) v, r !! j = Some v → v <= 0) →
    (∀ a, a ∈ acc → a = zeros (len (Apartment.timestamps self))) →
    merged (length (Apartment.timestamps self)) acc motion →
    ∃ acc' motion',
      Apartment.motion_of_persons fuel self st ps motion g
      = Some (Ok motion', g) ∧
      (∀ a, a ∈ acc' → a = zeros (len (Apartment.timestamps self))) ∧
      merged (length (Apartment.timestamps self)) acc' motion'.
Proof.
  intros Hfuel. induction ps as [|k ps IH]; intros acc motion g Hall Hacc Hm.
  - by exists acc, motion.
  - destruct (Hall k) as (r & Hroom & Hr & Hidle); [by left|].
    cbn [Apartment.motion_of_persons]. unfold Apartment._simulate_person_motion.
    rewrite Hroom. unfold len at 1.
    rewrite (motion_loop_idle _ r _ _ _ Hr Hidle) by lia.
    destruct (merged_step _ acc motion (zeros (len (Apartment.timestamps self))) Hm)
      as (motion1 & Hor & Hm1).
    { rewrite zeros_length. unfold len. lia. }
    rewrite Hor. apply (IH (acc ++ [zeros (len (Apartment.timestamps self))])).
    + intros j Hj. apply Hall. by right.
    + intros a [Ha|Ha%list_elem_of_singleton]%elem_of_app; [by apply Hacc|done].
    + done.
Qed.

(** X8.  When no person of the apartment is ever in the room (every
    [room1] array is of the axis' length and nowhere positive),
    [Apartment.generate] draws nothing from the process-wide generator and
    stores the all-zero motion array, whatever the movement probability and
    the duration range. *)
Theorem empty_room_no_motion
    (self : Apartment.t) (st : store) (fuel : nat) (g : Generator)
    (Hidle : ∀ k, k ∈ Apartment.persons self →
               ∃ r, Person.get_room1_state (st k) = Some r ∧
                    length r = length (Apartment.timestamps self) ∧
                    ∀ (j : nat) v, r !! j = Some v → v <= 0)
    (Hfuel : (length (Apartment.timestamps self) ≤ fuel)%nat) :
  ∃ self',
    Apartment.generate fuel self st g = Some (Ok self', g) ∧
    Apartment.get_motion self' = Some (zeros (len (Apartment.timestamps self))).
Proof.
  destruct (motion_of_persons_idle fuel self st Hfuel (Apartment.persons self) []
              (IntArray (zeros (len (Apartment.timestamps self)))) g Hidle)
    as (acc & motion & Hrun & Hacc & (_ & _ & Hint)).
  { intros a Ha. by apply elem_of_nil in Ha. }
  { apply merged_zeros. }
  unfold Apartment.generate, Apartment._generate_motion.
  rewrite Hrun, Hint. eexists. split; [reflexivity|].
  cbn [Apartment.get_motion Apartment._motion_state]. f_equal.
  by apply elementwise_or_zeros.
Qed.

(** ** Motion: bursts of no length *)

Lemma rand_lt_certain g prob :
  (1 <= prob)%Q → Apartment.rand_lt (Sampling.rand g).1 prob = true.
Proof.
  intros Hp. unfold Apartment.rand_lt, Sampling.rand. cbn [next fst].
  apply negb_true_iff. destruct (Qle_bool prob _) eqn:E; [|done].
  apply Qle_bool_iff in E. exfalso.
  assert (Qmake (bits g (drawn g) `mod` 2 ^ 53) (2 ^ 53) < 1)%Q as Hu.
  { unfold Qlt. cbn [Qnum Qden].
    pose proof (Z.mod_pos_bound (bits g (drawn g)) (2 ^ 53) eq_refl).
    change (Z.pos (2 ^ 53)) with (2 ^ 53). lia. }
  apply (Qlt_irrefl 1). eapply Qle_lt_trans; [exact Hp|].
  eapply Qle_lt_trans; [exact E|exact Hu].
Qed.

Lemma integers_zero g : Sampling.integers 0 (0 + 1) g = (Ok 0, (next g).2).
Proof.
  unfold Sampling.integers. change (0 + 1 <=? 0) with false.
  change (0 + 1 - 0) with 1. cbn [next snd]. by rewrite Z.mod_1_r.
Qed.

Lemma motion_loop_stuck (n : nat) (r : list Z) prob (j : nat) v :
  length r = n → (1 <= prob)%Q →
  (j < n)%nat → r !! j = Some v → 0 < v →
  ∀ fuel i pm bursts g,
    0 <= i <= Z.of_nat j →
    Apartment.motion_loop fuel (Z.of_nat n) (Some r) prob 0 0 i pm bursts g
    = None.
Proof.
  intros Hr Hp Hj Hv Hpos. induction fuel as [|fuel IH];
    intros i pm bursts g Hi; cbn [Apartment.motion_loop].
  - destruct (Z.ltb_spec i (Z.of_nat n)); [done|lia].
  - destruct (Z.ltb_spec i (Z.of_nat n)) as [Hin|?]; [|lia].
    cbn [Apartment.subscript].
    destruct (lookup_lt_is_Some_2 r (Z.to_nat i)) as [w Hw]; [lia|].
    rewrite (proj2 (getitem_nonneg r i w (proj1 Hi)) Hw).
    destruct (Z.ltb_spec 0 w) as [Hwpos|Hwneg].
    + pose proof (rand_lt_certain g prob Hp) as Hrand.
      destruct (Sampling.rand g) as [u g1]. cbn [fst] in Hrand. rewrite Hrand.
      rewrite integers_zero, Z.add_0_r, Z.min_l by lia.
      by apply IH.
    + apply IH. destruct (decide (i = Z.of_nat j)) as [->|Hne]; [|lia].
      rewrite Nat2Z.id in Hw. rewrite Hv in Hw. injection Hw as <-. lia.
Qed.

(** X9.  With [min_duration = max_duration = 0] and a movement probability
    of at least 1, the motion pass of a person that is in the room at some
    index never ends: the cursor stays at the first such index, so
    [Apartment.generate] does not return when that person is the first of
    the apartment. *)
Theorem zero_duration_never_returns
    (self : Apartment.t) (st : store) (k : nat) (rest : list nat)
    (r : list Z) (j : nat) (v : Z)
    (Hps : Apartment.persons self = k :: rest)
    (Hroom : Person.get_room1_state (st k) = Some r)
    (Hlen : length r = length (Apartment.timestamps self))
    (Hocc : r !! j = Some v ∧ 0 < v)
    (Hmin : Apartment.min_duration self = 0)
    (Hmax : Apartment.max_duration self = 0)
    (Hprob : (1 <= Apartment.prob_movement self)%Q) :
  ∀ fuel g,
    Apartment._simulate_person_motion fuel self (st k) g = None ∧
    Apartment.generate fuel self st g = None.
Proof.
  intros fuel g. destruct Hocc as [Hv Hpos].
  assert (Apartment._simulate_person_motion fuel self (st k) g = None) as Hsim.
  { unfold Apartment._simulate_person_motion. rewrite Hroom, Hmin, Hmax.
    unfold len at 1.
    rewrite (motion_loop_stuck _ r _ j v Hlen Hprob); [done| |done|done|lia].
    apply lookup_lt_Some in Hv. lia. }
  split; [exact Hsim|].
  unfold Apartment.generate, Apartment._generate_motion. rewrite Hps.
  cbn [Apartment.motion_of_persons]. by rewrite Hsim.
Qed.

(** ** Aggregation behind a person that has not generated *)

Lemma generated_shapes p0 ts tl p' :
  Person.generate (Person.set_timeline p0 ts) = (Ok tl, p') →
  (∃ w, Person.get_window_state p' = Some w ∧ shape (length ts) w) ∧
  (∃ d, Person.get_door_state p' = Some d ∧ shape (length ts) d).
Proof.
  intros Hgen. apply generate_bound_Ok in Hgen as (Hrun & _ & Hcache).
  pose proof (compute_timeline_safe (Person.set_timeline p0 ts) ts eq_refl
                (Person.rng p0)) as Hsafe.
  unfold safe in Hsafe. rewrite Hrun in Hsafe. cbn [fst] in Hsafe.
  destruct Hsafe as (r & w & d & -> & _ & _ & _ & Hw & Hd).
  unfold Person.get_window_state, Person.get_door_state. rewrite Hcache.
  split; eauto.
Qed.

Lemma elementwise_or_lookup n acc (k : nat) :
  (k < n)%nat →
  elementwise_or n acc !! k
  = Some (if existsb (λ a : list Z, truthy (a !!! k)) acc then 1 else 0).
Proof.
  intros Hk. unfold elementwise_or. by rewrite list_lookup_fmap, lookup_seq_lt.
Qed.

Lemma elementwise_or_length n acc : length (elementwise_or n acc) = n.
Proof. unfold elementwise_or. by rewrite length_fmap, length_seq. Qed.

Lemma binary_truthy v : v = 0 ∨ v = 1 → (if truthy v then 1 else 0) = v.
Proof. by intros [->| ->]. Qed.

Lemma merged_objects_step n acc state (w : list Z) :
  merged_objects n acc state → shape n w →
  ∃ state', np_logical_or state (Some (IntArray w)) = Ok state' ∧
            merged_objects n (acc ++ [w]) state'.
Proof.
  intros -> [Hlen Hbin]. unfold np_logical_or.
  cbn [is_object_array orb as_objects]. unfold broadcast.
  set (l := match acc with
            | [] => replicate n PyNone
            | _ :: _ => PyInt <$> elementwise_or n acc
            end).
  assert (length l = n) as Hl.
  { subst l. destruct acc.
    - apply length_replicate.
    - by rewrite length_fmap, elementwise_or_length. }
  rewrite bool_decide_eq_true_2 by (rewrite length_fmap; lia).
  eexists. split; [reflexivity|]. unfold merged_objects. f_equal.
  assert (∃ a acc', acc ++ [w] = a :: acc') as (a & acc' & Happ).
  { destruct acc; simpl; eauto. }
  rewrite Happ, <- Happ. apply list_eq. intros k.
  rewrite lookup_zip_with, !list_lookup_fmap.
  destruct (decide (k < n)%nat) as [Hk|Hk].
  2: { rewrite (lookup_ge_None_2 l) by lia.
       by rewrite (lookup_ge_None_2 (elementwise_or n _))
         by (rewrite elementwise_or_length; lia). }
  destruct (lookup_lt_is_Some_2 w k) as [v Hv]; [lia|].
  rewrite Hv, elementwise_or_lookup by done. cbn [fmap option_fmap option_map].
  rewrite existsb_app. cbn [existsb]. rewrite orb_false_r.
  rewrite (list_lookup_total_correct w k v Hv).
  subst l. destruct acc as [|a0 acc0].
  - rewrite lookup_replicate_2 by done. cbn.
    by rewrite (binary_truthy v (Hbin k v Hv)).
  - rewrite list_lookup_fmap, elementwise_or_lookup by done.
    cbn [fmap option_fmap option_map mbind option_bind].
    destruct (existsb _ (a0 :: acc0)); cbn; [done|].
    by rewrite (binary_truthy v (Hbin k v Hv)).
Qed.

Lemma aggregate_merged_objects (st : store)
    (state_func : Person.t → option (list Z)) (n : nat) (ps : list nat) :
  (∀ k, k ∈ ps → ∃ w, state_func (st k) = Some w ∧ shape n w) →
  ∀ acc state, merged_objects n acc state →
    ∃ state',
      foldl (λ state person,
               state ← state;
               np_logical_or state (IntArray <$> state_func (st person)))
            (Ok state) ps = Ok state' ∧
      merged_objects n (acc ++ ((λ k, default [] (state_func (st k))) <$> ps))
                     state'.
Proof.
  induction ps as [|k ps IH]; intros Hall acc state Hm.
  - exists state. by rewrite app_nil_r.
  - destruct (Hall k) as (w & Hw & Hshape); [by left|].
    destruct (merged_objects_step n acc state w Hm Hshape)
      as (state1 & Hstep & Hm1).
    cbn [foldl mbind result_bind]. rewrite Hw. cbn [fmap option_fmap option_map].
    rewrite Hstep.
    destruct (IH (λ j Hj, Hall j (proj2 (elem_of_cons ps j k) (or_intror Hj)))
                 _ _ Hm1) as (state' & Hfold & Hm').
    exists state'. split; [exact Hfold|].
    cbn [fmap list_fmap]. rewrite Hw. cbn [default].
    by rewrite <- app_assoc in Hm'.
Qed.

Lemma astype_int_ints (l : list Z) : astype_int (ObjectArray (PyInt <$> l)) = Ok l.
Proof.
  cbn [astype_int]. induction l as [|x l IH]; [done|].
  cbn. cbn in IH. by rewrite IH.
Qed.

Lemma aggregate_behind_absent (self : Apartment.t) (st : store) state_func
    (pre post : list nat) :
  Apartment.persons self = pre ++ post →
  pre ≠ [] → post ≠ [] →
  (∀ k, k ∈ pre → state_func (st k) = None) →
  (∀ k, k ∈ post → ∃ w, state_func (st k) = Some w ∧
                        shape (length (Apartment.timestamps self)) w) →
  Apartment._aggregate_person_state self st state_func
  = Ok (elementwise_or (length (Apartment.timestamps self))
          ((λ k, default [] (state_func (st k))) <$> post)).
Proof.
  intros Hps Hpre Hpost Habsent Hgen. unfold Apartment._aggregate_person_state.
  rewrite Hps, foldl_app. destruct pre as [|k pre]; [done|].
  cbn [foldl]. rewrite (Habsent k) by left.
  cbn [mbind result_bind fmap option_fmap option_map np_logical_or].
  rewrite obj_or_none_zeros, aggregate_all_absent.
  2: { intros j Hj. apply Habsent. by right. }
  unfold len. rewrite Nat2Z.id.
  destruct (aggregate_merged_objects st state_func _ post Hgen []
              (ObjectArray (replicate (length (Apartment.timestamps self)) PyNone))
              eq_refl) as (state' & -> & Hm').
  cbn [mbind result_bind app]. rewrite Hm'.
  destruct post as [|p post]; [done|]. cbn [fmap list_fmap].
  apply astype_int_ints.
Qed.

(** X10.  [get_window] and [get_door] do not notice persons that have not
    generated when these come first in the apartment's list: if they are
    followed by at least one person that generated on the apartment's axis,
    the result is the elementwise OR over the persons that generated, and
    nothing is raised. *)
Theorem aggregate_skips_leading_absent
    (self : Apartment.t) (st : store) (pre post : list nat)
    (Hps : Apartment.persons self = pre ++ post)
    (Hpre : pre ≠ []) (Hpost : post ≠ [])
    (Habsent : ∀ k, k ∈ pre → Person._timeline_cache (st k) = None)
    (Hgen : ∀ k, k ∈ post →
              ∃ p0 tl, Person.generate
                         (Person.set_timeline p0 (Apartment.timestamps self))
                       = (Ok tl, st k)) :
  Apartment.get_window self st
  = Ok (elementwise_or (length (Apartment.timestamps self))
          (window_arrays st post)) ∧
  Apartment.get_door self st
  = Ok (elementwise_or (length (Apartment.timestamps self))
          (door_arrays st post)).
Proof.
  split.
  - apply (aggregate_behind_absent self st Person.get_window_state pre post);
      [done..| |].
    + intros k Hk. unfold Person.get_window_state. by rewrite (Habsent k Hk).
    + intros k Hk. destruct (Hgen k Hk) as (p0 & tl & Hk').
      by apply generated_shapes in Hk' as [Hw _].
  - apply (aggregate_behind_absent self st Person.get_door_state pre post);
      [done..| |].
    + intros k Hk. unfold Person.get_door_state. by rewrite (Habsent k Hk).
    + intros k Hk. destruct (Hgen k Hk) as (p0 & tl & Hk').
      by apply generated_shapes in Hk' as [_ Hd].
Qed.

(** ** The timeline of the driver *)


(** ** The presence stage of the driver *)

Lemma elementwise_or_shape n acc : shape n (elementwise_or n acc).
Proof.
  split; [apply elementwise_or_length|].
  intros k v Hk.
  destruct (decide (k < n)%nat) as [Hlt|Hge].
  - rewrite elementwise_or_lookup in Hk by done. injection Hk as <-.
    destruct (existsb _ acc); auto.
  - apply lookup_lt_Some in Hk. rewrite elementwise_or_length in Hk. lia.
Qed.

Lemma generate_well_ranged p0 ts :
  well_ranged p0 →
  ∃ tl p', Person.generate (Person.set_timeline p0 ts) = (Ok tl, p').
Proof.
  intros Hwr.
  pose proof (compute_timeline_safe (Person.set_timeline p0 ts) ts eq_refl
                (Person.rng p0)) as Hsafe.
  unfold Person.generate.
  cbn [Person._timeline_cache Person.timestamps Person.set_timeline
       Person.with_state Person.rng].
  unfold safe in Hsafe.
  destruct (Person.compute_timeline _ ts (Person.rng p0)) as [[tl|e] g'];
    cbn [fst] in Hsafe; [eauto|].
  by destruct Hsafe as [_ []].
Qed.

Lemma create_persons_generate PCG64 timeline :
  ∃ st' : nat → Person.t,
    generate_in_turn [0; 1]%nat
      (store_of (create_persons PCG64 timeline)
                (Person.set_timeline alice timeline)) = Ok st' ∧
    ∀ k, k ∈ [0; 1]%nat →
      ∃ p0 tl, Person.generate (Person.set_timeline p0 timeline) = (Ok tl, st' k).
Proof.
  set (st := store_of (create_persons PCG64 timeline)
                      (Person.set_timeline alice timeline)).
  destruct (generate_well_ranged
              (Person.__init__ PCG64 "Alice" [(8, 17)] [(9, 12); (16, 20)] (23, 6)
                 (1, 2) (15, 60) (1, 3) (1, 3) (1, 3) (15, 60) (Some 123) 0)
              timeline) as (tl0 & p0' & H0).
  { repeat split; cbn; lia. }
  destruct (generate_well_ranged
              (Person.__init__ PCG64 "Bob" [(7, 16)] [(9, 12); (13, 20)] (22, 6)
                 (0, 2) (15, 60) (1, 3) (15, 60) (1, 3) (15, 60) (Some 23) 0)
              timeline) as (tl1 & p1' & H1).
  { repeat split; cbn; lia. }
  exists (<[1%nat := p1']> (<[0%nat := p0']> st)). split.
  - cbn [generate_in_turn]. unfold generate_at at 1.
    change (st 0%nat) with
      (Person.set_timeline
         (Person.__init__ PCG64 "Alice" [(8, 17)] [(9, 12); (16, 20)] (23, 6)
            (1, 2) (15, 60) (1, 3) (1, 3) (1, 3) (15, 60) (Some 123) 0) timeline).
    rewrite H0. unfold generate_at.
    rewrite fn_lookup_insert_ne by done.
    change (st 1%nat) with
      (Person.set_timeline
         (Person.__init__ PCG64 "Bob" [(7, 16)] [(9, 12); (13, 20)] (22, 6)
            (0, 2) (15, 60) (1, 3) (15, 60) (1, 3) (15, 60) (Some 23) 0) timeline).
    by rewrite H1.
  - intros k [->|[->|[]%elem_of_nil]%elem_of_cons]%elem_of_cons.
    + rewrite fn_lookup_insert_ne, fn_lookup_insert by done. eauto.
    + rewrite fn_lookup_insert. eauto.
Qed.

(** X12.  The presence stage of [generate_sensor_data] completes for every
    timeline and every state of the random streams: neither resident's
    [generate] raises, the apartment's motion pass ends within one
    iteration per index and person, and the window, door and motion
    sensors it returns are arrays of the timeline's length with entries
    0 or 1. *)
Theorem presence_sensors_complete
    (PCG64 MT19937 : Z → nat → Z) (fuel : nat)
    (timeline : list Timestamp) (global : Generator)
    (Hfuel : (length timeline ≤ fuel)%nat) :
  ∃ window door motion global',
    presence_sensors PCG64 MT19937 fuel timeline global
    = Some (Ok (window, door, Some motion), global') ∧
    shape (length timeline) window ∧
    shape (length timeline) door ∧
    shape (length timeline) motion.
Proof.
  unfold presence_sensors. cbv zeta.
  change (seq 0 (length (create_persons PCG64 timeline))) with [0; 1]%nat.
  destruct (create_persons_generate PCG64 timeline) as (st' & -> & Hgen).
  cbn [Apartment.__init__ default id].
  set (apartment := Apartment.mk timeline [0; 1]%nat (Qmake 3 10) 1 10 None None).
  destruct (apartment_generate_defined apartment st' fuel global)
    as (motion & global' & -> & Hmotion); [done|done|done|].
  cbn [Apartment.timestamps Apartment.persons Apartment.prob_movement
       Apartment.min_duration Apartment.max_duration Apartment.seed apartment].
  set (apartment' := Apartment.mk timeline [0; 1]%nat (Qmake 3 10) 1 10 None
                       (Some motion)).
  unfold Apartment.get_window, Apartment.get_door.
  rewrite (aggregate_elementwise_or apartment' st' Person.get_window_state).
  2: { intros k Hk. destruct (Hgen k Hk) as (p0 & tl & Hk').
       by apply generated_lengths in Hk' as [Hw _]. }
  rewrite (aggregate_elementwise_or apartment' st' Person.get_door_state).
  2: { intros k Hk. destruct (Hgen k Hk) as (p0 & tl & Hk').
       by apply generated_lengths in Hk' as [_ Hd]. }
  cbn [mbind result_bind mret result_ret Apartment.get_motion
       Apartment._motion_state Apartment.timestamps apartment'].
  eexists _, _, motion, global'. split; [reflexivity|].
  split; [apply elementwise_or_shape|]. split; [apply elementwise_or_shape|done].
Qed.

(** ** What [generate] leaves alone *)

Lemma stream_advances_refl g : stream_advances g g.
Proof. by split. Qed.

Lemma stream_advances_next g : stream_advances g (next g).2.
Proof. split; [done|]. cbn. lia. Qed.

Lemma advancing_ret {A} (a : A) : advancing (mret a : M A).
Proof. intros g. apply stream_advances_refl. Qed.

Lemma advancing_lift {A} (r : result A) : advancing (lift r).
Proof. intros g. apply stream_advances_refl. Qed.

Lemma advancing_bind {A B} (m : M A) (f : A → M B) :
  advancing m → (∀ a, advancing (f a)) → advancing (m ≫= f).
Proof.
  intros Hm Hf g. specialize (Hm g). unfold mbind, M_bind.
  destruct (m g) as [[a|e] g1]; cbn [snd] in *; [|done].
  specialize (Hf a g1). unfold stream_advances in *. destruct Hm as [Hb Hd], Hf as [Hb' Hd'].
  split; [congruence|lia].
Qed.

Lemma advancing_integers low high : advancing (Sampling.integers low high).
Proof.
  intros g. unfold Sampling.integers.
  destruct (high <=? low); [apply stream_advances_refl|].
  apply stream_advances_next.
Qed.

Lemma advancing_choice a : advancing (Sampling.choice a).
Proof.
  intros g. unfold Sampling.choice.
  destruct a; [apply stream_advances_refl|]. apply stream_advances_next.
Qed.

Lemma advancing_for_each {A S} (xs : list A) (body : A → S → M S) :
  (∀ x s, advancing (body x s)) → ∀ s, advancing (for_each xs body s).
Proof.
  intros Hbody. induction xs as [|x xs IH]; intros s; cbn [for_each].
  - apply advancing_ret.
  - apply advancing_bind; [apply Hbody|apply IH].
Qed.

Lemma advancing_events inside sleeping
    (fill : list Z → list Z → result (list Z)) c1 c2 d1 d2 groups s :
  advancing
    (for_each groups (λ day_indices s,
       n_events ← Sampling.integers c1 c2;
       for_range n_events (λ s,
         valid ← lift (Person.valid_indices inside sleeping day_indices);
         match valid with
         | [] => mret s
         | _ :: _ =>
             start_idx ← Sampling.choice valid;
             duration ← Sampling.integers d1 d2;
             last ← lift (getitem day_indices (-1));
             lift (fill (range start_idx
                           (Z.min (start_idx + duration) (last + 1))) s)
         end) s) s).
Proof.
  apply advancing_for_each. intros day s'.
  apply advancing_bind; [apply advancing_integers|]. intros n_events.
  unfold for_range. apply advancing_for_each. intros _ s''.
  apply advancing_bind; [apply advancing_lift|]. intros valid.
  destruct valid; [apply advancing_ret|].
  apply advancing_bind; [apply advancing_choice|]. intros start_idx.
  apply advancing_bind; [apply advancing_integers|]. intros duration.
  apply advancing_bind; [apply advancing_lift|]. intros last.
  apply advancing_lift.
Qed.

Lemma advancing_compute_timeline self ts :
  advancing (Person.compute_timeline self ts).
Proof.
  unfold Person.compute_timeline. cbv zeta.
  apply advancing_bind.
  { unfold Person._generate_room1. cbv zeta.
    destruct (_ =? 0); [apply advancing_ret|].
    apply (advancing_events _ _ (Person.fill_room1 _ _ _)). }
  intros room1. apply advancing_bind.
  { unfold Person._generate_window_state.
    apply advancing_bind; [apply advancing_lift|]. intros n.
    apply (advancing_events _ _ (Person.fill_window _ _)). }
  intros windows. apply advancing_bind.
  { unfold Person._generate_door_state.
    apply advancing_bind; [apply advancing_lift|]. intros n.
    apply advancing_bind; [apply advancing_lift|]. intros d0.
    apply (advancing_events _ _ (Person.fill_door _)). }
  intros doors. apply advancing_ret.
Qed.

(** X13.  A call of [generate], whatever it returns or raises, changes
    nothing of the person but the cache and the position of its random
    stream: the configuration and the bound timeline stay, the stream keeps
    its raw sequence and is never moved back, and the cache holds the
    returned arrays after a return and is as before after an exception. *)
Theorem generate_frame (p : Person.t) :
  let r := (Person.generate p).1 in
  let p' := (Person.generate p).2 in
  Person.with_state p' (Person.rng p) (Person.timestamps p)
                    (Person._timeline_cache p) = p ∧
  Person.timestamps p' = Person.timestamps p ∧
  stream_advances (Person.rng p) (Person.rng p') ∧
  Person._timeline_cache p'
  = match r with
    | Ok tl => Some tl
    | Raise _ => Person._timeline_cache p
    end.
Proof.
  pose proof (advancing_compute_timeline p) as Hadv.
  unfold Person.generate. destruct p as [? ? ? ? ? ? ? ? ? ? g [ts|] [c|]];
    cbn [Person._timeline_cache Person.timestamps Person.rng fst snd];
    try (repeat split; apply stream_advances_refl).
  specialize (Hadv ts g). cbn [Person.rng] in Hadv.
  destruct (Person.compute_timeline _ ts g) as [[tl|e] g']; by cbn in *.
Qed.

(** ** Instances *)

Lemma inside_follows_outside_hours_witness :
  let tf := extract_time_features (hourly_axis new_year_2025) in
  hours tf !! 9%nat = Some (inject_Z 9 + Qmake 0 60 + Qmake 0 3600)%Q ∧
  weekday tf !! 9%nat = Some 2 ∧
  ∃ v, Person._generate_inside alice tf !! 9%nat = Some v ∧
       (v = 0 ∨ v = 1) ∧
       (v = 0 ↔ ∃ start end_,
           (start, end_) ∈ Person.outside_hours_weekdays alice ∧
           (inject_Z start <= inject_Z 9 + Qmake 0 60 + Qmake 0 3600)%Q ∧
           (inject_Z 9 + Qmake 0 60 + Qmake 0 3600 < inject_Z end_)%Q).
Proof.
  split; [vm_compute; reflexivity|]. split; [vm_compute; reflexivity|].
  apply (inside_follows_outside_hours alice (hourly_axis new_year_2025) 9%nat
           (inject_Z 9 + Qmake 0 60 + Qmake 0 3600)%Q 2);
    vm_compute; reflexivity.
Defined.

Lemma room1_confined_fill_skips_witness :
  ∃ inside sleeping room1 windows doors p',
    Person.generate (Person.set_timeline alice (hourly_axis new_year_2025))
    = (Ok (inside, sleeping, room1, windows, doors), p') ∧
    confined inside sleeping room1 ∧
    ∀ (n : Z) (pre : list Z) (j : Z) (post r : list Z),
      j < n →
      Person.awake_inside inside sleeping j = Ok false →
      Person.fill_room1 n inside sleeping (pre ++ j :: post) r
      = Person.fill_room1 n inside sleeping (pre ++ post) r.
Proof.
  eexists _, _, _, _, _, _. split; [vm_compute; reflexivity|].
  eapply (room1_confined_fill_skips alice (hourly_axis new_year_2025)).
  vm_compute. reflexivity.
Defined.

Lemma door_marks_transitions_and_ranges_witness :
  ∃ inside sleeping room1 windows doors p',
    Person.generate (Person.set_timeline alice (hourly_axis new_year_2025))
    = (Ok (inside, sleeping, room1, windows, doors), p') ∧
    (∀ (k : nat) a b,
       inside !! k = Some a → inside !! S k = Some b → a ≠ b →
       doors !! S k = Some 1) ∧
    (∀ idx d : list Z,
       (∀ i, i ∈ idx → 0 <= i < len d) →
       Person.fill_door (len d) idx d = Ok (mark d idx)).
Proof.
  eexists _, _, _, _, _, _. split; [vm_compute; reflexivity|].
  eapply (door_marks_transitions_and_ranges alice (hourly_axis new_year_2025)).
  vm_compute. reflexivity.
Defined.



Lemma dormitory_idle k :
  k ∈ Apartment.persons dormitory_flat →
  ∃ r, Person.get_room1_state (dormitory k) = Some r ∧
       length r = length (Apartment.timestamps dormitory_flat) ∧
       ∀ (j : nat) v, r !! j = Some v → v <= 0.
Proof.
  intros ->%list_elem_of_singleton. exists (replicate 24 0).
  split; [vm_compute; reflexivity|]. split; [vm_compute; reflexivity|].
  intros j v [-> _]%lookup_replicate. done.
Qed.

Lemma empty_room_no_motion_witness :
  (∀ k, k ∈ Apartment.persons dormitory_flat →
     ∃ r, Person.get_room1_state (dormitory k) = Some r ∧
          length r = length (Apartment.timestamps dormitory_flat) ∧
          ∀ (j : nat) v, r !! j = Some v → v <= 0) ∧
  (length (Apartment.timestamps dormitory_flat) ≤ 24)%nat ∧
  ∃ self',
    Apartment.generate 24 dormitory_flat dormitory (mkGenerator (sample_stream 5) 0)
    = Some (Ok self', mkGenerator (sample_stream 5) 0) ∧
    Apartment.get_motion self'
    = Some (zeros (len (Apartment.timestamps dormitory_flat))).
Proof.
  assert (length (Apartment.timestamps dormitory_flat) ≤ 24)%nat as Hfuel
    by (vm_compute; lia).
  split; [exact dormitory_idle|]. split; [exact Hfuel|].
  exact (empty_room_no_motion dormitory_flat dormitory 24
           (mkGenerator (sample_stream 5) 0) dormitory_idle Hfuel).
Defined.

Lemma zero_duration_never_returns_witness :
  Apartment.persons stalled = [0]%nat ∧
  (∃ r, Person.get_room1_state (settled 0%nat) = Some r ∧
        length r = length (Apartment.timestamps stalled) ∧
        r !! 17%nat = Some 1) ∧
  Apartment.min_duration stalled = 0 ∧
  Apartment.max_duration stalled = 0 ∧
  (1 <= Apartment.prob_movement stalled)%Q ∧
  ∀ fuel g,
    Apartment._simulate_person_motion fuel stalled (settled 0%nat) g = None ∧
    Apartment.generate fuel stalled settled g = None.
Proof.
  split; [reflexivity|]. split.
  { eexists. split; [vm_compute; reflexivity|]. split; vm_compute; reflexivity. }
  split; [reflexivity|]. split; [reflexivity|]. split; [by vm_compute|].
  eapply (zero_duration_never_returns stalled settled 0%nat [] _ 17%nat 1);
    try (vm_compute; reflexivity); try reflexivity.
  - split; [vm_compute; reflexivity|lia].
  - by vm_compute.
Defined.

Lemma aggregate_skips_leading_absent_witness :
  Apartment.persons flat = [0]%nat ++ [1]%nat ∧
  (∀ k, k ∈ [0]%nat → Person._timeline_cache (half_settled k) = None) ∧
  (∀ k, k ∈ [1]%nat →
     ∃ p0 tl, Person.generate
                (Person.set_timeline p0 (Apartment.timestamps flat))
              = (Ok tl, half_settled k)) ∧
  Apartment.get_window flat half_settled
  = Ok (elementwise_or (length (Apartment.timestamps flat))
          (window_arrays half_settled [1]%nat)) ∧
  Apartment.get_door flat half_settled
  = Ok (elementwise_or (length (Apartment.timestamps flat))
          (door_arrays half_settled [1]%nat)).
Proof.
  assert (∀ k, k ∈ [0]%nat → Person._timeline_cache (half_settled k) = None)
    as Habsent.
  { intros k ->%list_elem_of_singleton. vm_compute. reflexivity. }
  assert (∀ k, k ∈ [1]%nat →
            ∃ p0 tl, Person.generate
                       (Person.set_timeline p0 (Apartment.timestamps flat))
                     = (Ok tl, half_settled k)) as Hgen.
  { intros k ->%list_elem_of_singleton. exists (household 1%nat).
    eexists. vm_compute. reflexivity. }
  split; [reflexivity|]. split; [exact Habsent|]. split; [exact Hgen|].
  exact (aggregate_skips_leading_absent flat half_settled [0]%nat [1]%nat
           eq_refl ltac:(done) ltac:(done) Habsent Hgen).
Defined.


Lemma presence_sensors_complete_witness :
  (length (hourly_axis new_year_2025) ≤ 24)%nat ∧
  ∃ window door motion global',
    presence_sensors sample_stream sample_stream 24
      (hourly_axis new_year_2025) (mkGenerator (sample_stream 5) 0)
    = Some (Ok (window, door, Some motion), global') ∧
    shape (length (hourly_axis new_year_2025)) window ∧
    shape (length (hourly_axis new_year_2025)) door ∧
    shape (length (hourly_axis new_year_2025)) motion.
Proof.
  assert (length (hourly_axis new_year_2025) ≤ 24)%nat as Hfuel
    by (vm_compute; lia).
  split; [exact Hfuel|].
  exact (presence_sensors_complete sample_stream sample_stream 24
           (hourly_axis new_year_2025) (mkGenerator (sample_stream 5) 0) Hfuel).
Defined.
